(** * DeliveryAPI: cart, checkout, delivery cost and address handlers

    A shallow embedding of [main.py].  Every FastAPI handler becomes a
    function from the three in-memory stores to the stores after the call,
    paired with what the handler returned or raised.  Mutations made before
    an exception is raised stay in the returned stores, as they do in the
    Python process.

    - Python [float] is IEEE binary64: Rocq's primitive [float].
    - Python [int] is unbounded: [Z].  An [int] operand of a float
      multiplication is converted first, which raises [OverflowError] when
      it does not fit.
    - Python [str] is held as the UTF-8 encoding of its code points in a
      [string]; equality and "ends with an ASCII character" mean the same on
      both sides.
    - [dict] is [gmap]; no handler iterates over a store.
    - [uuid.uuid4()] is random: the value it returned is an argument. *)

From Stdlib Require Import ZArith Floats.
From stdpp Require Import base option strings list gmap.

Set Warnings "-inexact-float".

(** ** Numbers *)

(** [PyLong_AsDouble]: the conversion CPython applies to an [int] operand of
    [float.__mul__]; round to nearest, ties to even, and [OverflowError]
    when the rounded value is not finite. *)
Definition PyLong_AsDouble (z : Z) : option float :=
  let f := SF2Prim (binary_normalize prec emax z 0 false) in
  if is_infinity f then None else Some f.

(** [x * n] for a float [x] and an int [n]. *)
Definition float_mul_int (x : float) (n : Z) : option float :=
  f ← PyLong_AsDouble n; Some (x * f)%float.

(** [n * x] for an int [n] and a float [x]. *)
Definition int_mul_float (n : Z) (x : float) : option float :=
  f ← PyLong_AsDouble n; Some (f * x)%float.

(** The accumulation of the builtin [sum] over float terms that may raise:
    it starts from the int [0] (as a float, [0.0]) and adds the terms from
    left to right (CPython up to 3.11; later versions compensate the
    rounding error of that loop).  [None] is the [OverflowError] of a term. *)
Fixpoint sum_from (acc : float) (terms : list (option float)) : option float :=
  match terms with
  | [] => Some acc
  | t :: terms' => x ← t; sum_from (acc + x)%float terms'
  end.

Definition py_sum (terms : list (option float)) : option float :=
  sum_from 0%float terms.

(** ** Strings *)

(** [s.endswith(suffix)]. *)
Definition endswith (s suffix : string) : bool :=
  let n := String.length s in
  let m := String.length suffix in
  if (m <=? n)%nat then String.eqb (String.substring (n - m) m s) suffix else false.

(** ** Data model (the pydantic models) *)

Record Product := mkProduct {
  product_id : string;
  name : string;
  price : float;
  quantity : Z
}.

Record Cart := mkCart {
  user_id : string;
  items : list Product;
  total : float
}.

Record DeliveryAddress := mkDeliveryAddress {
  address_id : string;
  street : string;
  city : string;
  postal_code : string;
  country : string
}.

Record DeliveryCostRequest := mkDeliveryCostRequest {
  address : DeliveryAddress
}.

Record DeliveryCostResponse := mkDeliveryCostResponse {
  cost : float
}.

Record DeliveryInfo := mkDeliveryInfo {
  order_id : string;
  info_user_id : string;
  delivery_address : DeliveryAddress;
  delivery_cost : float;
  status : string
}.

Record AvailabilityCheckRequest := mkAvailabilityCheckRequest {
  region : string;
  request_product_id : string
}.

Record AvailabilityCheckResponse := mkAvailabilityCheckResponse {
  available : bool;
  message : string
}.

(** [Cart(user_id=user_id)]: no items, total [0.0]. *)
Definition new_cart (uid : string) : Cart := mkCart uid [] 0%float.

(** ** The in-memory stores *)

Record Stores := mkStores {
  carts : gmap string Cart;
  user_addresses : gmap string (list DeliveryAddress);
  deliveries : gmap string DeliveryInfo
}.

Definition empty_stores : Stores := mkStores ∅ ∅ ∅.

Definition set_carts (f : gmap string Cart → gmap string Cart) (s : Stores) : Stores :=
  mkStores (f (carts s)) (user_addresses s) (deliveries s).

(** ** Exceptions *)

Inductive exception :=
| HTTPException (status_code : Z) (detail : string)
| OverflowError.

Inductive outcome (A : Type) :=
| Return (a : A)
| Raise (e : exception).
Arguments Return {A} a.
Arguments Raise {A} e.

Definition NotFound (e : exception) : Prop :=
  ∃ detail, e = HTTPException 404 detail.

Definition InvalidState (e : exception) : Prop :=
  ∃ detail, e = HTTPException 400 detail.

(** A handler: the stores after the call and what the call produced. *)
Definition handler (A : Type) : Type := Stores → Stores * outcome A.

(** ** Cart handlers *)

Definition get_cart (uid : string) : handler Cart := λ s,
  match carts s !! uid with
  | Some cart => (s, Return cart)
  | None =>
      let cart := new_cart uid in
      (set_carts <[uid := cart]> s, Return cart)
  end.

(** [product.price * product.quantity], as [add_product_to_cart] and
    [remove_product_from_cart] write it. *)
Definition line_total (p : Product) : option float :=
  float_mul_int (price p) (quantity p).

(** The cart object is fetched or created and stored, the product is
    appended to its list, and only then is the product's cost computed and
    added: an [OverflowError] of that product leaves the item in the list.
    A pydantic model is always truthy, so [not cart] tests for [None]. *)
Definition add_product_to_cart (uid : string) (product : Product) : handler Cart := λ s,
  let cart := default (new_cart uid) (carts s !! uid) in
  let cart1 := mkCart (user_id cart) (items cart ++ [product]) (total cart) in
  let s1 := set_carts <[uid := cart1]> s in
  match line_total product with
  | None => (s1, Raise OverflowError)
  | Some c =>
      let cart2 := mkCart (user_id cart1) (items cart1) (total cart1 + c)%float in
      (set_carts <[uid := cart2]> s1, Return cart2)
  end.

(** The [for ... break] loop of [remove_product_from_cart]. *)
Fixpoint find_product (pid : string) (l : list Product) : option Product :=
  match l with
  | [] => None
  | item :: l' =>
      if String.eqb (product_id item) pid then Some item else find_product pid l'
  end.

(** [cart.items.remove(product_to_remove)] for the object the loop found:
    [list.remove] deletes the first element that is that object or compares
    equal to it.  Two pydantic models are equal only if all their fields
    are, the [id] among them, and every element before the found one has
    another id: the element deleted is the first one whose id is [pid]. *)
Fixpoint remove_found (pid : string) (l : list Product) : list Product :=
  match l with
  | [] => []
  | item :: l' =>
      if String.eqb (product_id item) pid then l' else item :: remove_found pid l'
  end.

Definition remove_product_from_cart (uid pid : string) : handler Cart := λ s,
  match carts s !! uid with
  | None => (s, Raise (HTTPException 404 "Кошик не знайдено"))
  | Some cart =>
      match find_product pid (items cart) with
      | None => (s, Raise (HTTPException 404 "Товар не знайдено в кошику"))
      | Some product_to_remove =>
          let cart1 := mkCart (user_id cart) (remove_found pid (items cart)) (total cart) in
          let s1 := set_carts <[uid := cart1]> s in
          match line_total product_to_remove with
          | None => (s1, Raise OverflowError)
          | Some c =>
              let cart2 := mkCart (user_id cart1) (items cart1) (total cart1 - c)%float in
              (set_carts <[uid := cart2]> s1, Return cart2)
          end
      end
  end.

(** [item.quantity * item.price], as [checkout] writes it. *)
Definition checkout_term (item : Product) : option float :=
  int_mul_float (quantity item) (price item).

(** [uuid] is the value [uuid.uuid4()] returned in this call. *)
Definition checkout (uid : string) (addr : DeliveryAddress) (uuid : string)
  : handler DeliveryInfo := λ s,
  match carts s !! uid with
  | None => (s, Raise (HTTPException 400 "Кошик порожній"))
  | Some cart =>
      if (length (items cart) =? 0)%nat
      then (s, Raise (HTTPException 400 "Кошик порожній"))
      else
        let base_cost := 5%float in
        match py_sum (checkout_term <$> items cart) with
        | None => (s, Raise OverflowError)
        | Some items_cost =>
            let delivery_info :=
              mkDeliveryInfo uuid uid addr (base_cost + items_cost)%float "Processing" in
            (mkStores (<[uid := new_cart uid]> (carts s))
                      (user_addresses s)
                      (<[uuid := delivery_info]> (deliveries s)),
             Return delivery_info)
        end
  end.

(** ** Delivery and address handlers that touch the stores *)

Definition get_delivery_info (oid : string) : handler DeliveryInfo := λ s,
  match deliveries s !! oid with
  | None => (s, Raise (HTTPException 404 "Інформацію про доставку не знайдено"))
  | Some delivery => (s, Return delivery)
  end.

Definition get_user_addresses (uid : string) : handler (list DeliveryAddress) := λ s,
  (s, Return (default [] (user_addresses s !! uid))).

Definition add_delivery_address (uid : string) (addr : DeliveryAddress)
  : handler (list DeliveryAddress) := λ s,
  let addresses := default [] (user_addresses s !! uid) ++ [addr] in
  (mkStores (carts s) (<[uid := addresses]> (user_addresses s)) (deliveries s),
   Return addresses).

(** ** Delivery handlers that compute from the request alone *)

Section Lowercase.

(** [str.lower] comes from the Unicode tables of the Python runtime, which
    are not part of the repository. *)
Variable str_lower : string → string.

Definition calculate_delivery_cost (request : DeliveryCostRequest)
  : DeliveryCostResponse :=
  if String.eqb (str_lower (country (address request))) "україна"
  then mkDeliveryCostResponse 5%float
  else mkDeliveryCostResponse 15%float.

Definition check_delivery_availability (request : AvailabilityCheckRequest)
  : AvailabilityCheckResponse :=
  if String.eqb (str_lower (region request)) "схід"
     && endswith (request_product_id request) "1"
  then mkAvailabilityCheckResponse false "Товар недоступний для доставки в даний регіон"
  else mkAvailabilityCheckResponse true "Товар доступний для доставки".

End Lowercase.

(** ** Requests and runs *)

Definition map_outcome {A B : Type} (f : A → B) (o : outcome A) : outcome B :=
  match o with
  | Return a => Return (f a)
  | Raise e => Raise e
  end.

Definition respond {A B : Type} (f : A → B) (h : handler A) : handler B := λ s,
  let '(s', o) := h s in (s', map_outcome f o).

(** The four routes under [/cart]. *)
Inductive cart_request :=
| GetCart (uid : string)
| AddProduct (uid : string) (product : Product)
| RemoveProduct (uid pid : string)
| Checkout (uid : string) (addr : DeliveryAddress) (uuid : string).

Inductive cart_response :=
| CartBody (c : Cart)
| OrderBody (d : DeliveryInfo).

Definition handle_cart (r : cart_request) : handler cart_response :=
  match r with
  | GetCart uid => respond CartBody (get_cart uid)
  | AddProduct uid product => respond CartBody (add_product_to_cart uid product)
  | RemoveProduct uid pid => respond CartBody (remove_product_from_cart uid pid)
  | Checkout uid addr uuid => respond OrderBody (checkout uid addr uuid)
  end.

(** The stores after a sequence of cart requests, served in order. *)
Definition run_cart (rs : list cart_request) (s : Stores) : Stores :=
  foldl (λ s r, (handle_cart r s).1) s rs.

(** All nine routes. *)
Inductive request :=
| CartRequest (r : cart_request)
| CalculateDeliveryCost (req : DeliveryCostRequest)
| GetDeliveryInfo (oid : string)
| CheckDeliveryAvailability (req : AvailabilityCheckRequest)
| GetUserAddresses (uid : string)
| AddDeliveryAddress (uid : string) (addr : DeliveryAddress).

Inductive response :=
| CartRoute (b : cart_response)
| CostBody (c : DeliveryCostResponse)
| InfoBody (d : DeliveryInfo)
| AvailabilityBody (a : AvailabilityCheckResponse)
| AddressesBody (l : list DeliveryAddress).

Definition handle (str_lower : string → string) (r : request) : handler response :=
  match r with
  | CartRequest r => respond CartRoute (handle_cart r)
  | CalculateDeliveryCost req =>
      λ s, (s, Return (CostBody (calculate_delivery_cost str_lower req)))
  | GetDeliveryInfo oid => respond InfoBody (get_delivery_info oid)
  | CheckDeliveryAvailability req =>
      λ s, (s, Return (AvailabilityBody (check_delivery_availability str_lower req)))
  | GetUserAddresses uid => respond AddressesBody (get_user_addresses uid)
  | AddDeliveryAddress uid addr => respond AddressesBody (add_delivery_address uid addr)
  end.

Definition run (str_lower : string → string) (rs : list request) (s : Stores) : Stores :=
  foldl (λ s r, (handle str_lower r s).1) s rs.

(** ** A lowercasing for worked examples

    [str.lower] restricted to the code points the handlers' constants are
    written in: ASCII and Cyrillic U+0400 to U+042F, on the UTF-8 bytes.
    Bytes of other code points are kept. *)

Fixpoint lower_utf8 (l : list N) : list N :=
  match l with
  | [] => []
  | a :: l' =>
      match l' with
      | b :: l'' =>
          if (a =? 208)%N then
            if (128 <=? b)%N && (b <=? 143)%N then 209%N :: (b + 16)%N :: lower_utf8 l''
            else if (144 <=? b)%N && (b <=? 159)%N then 208%N :: (b + 32)%N :: lower_utf8 l''
            else if (160 <=? b)%N && (b <=? 175)%N then 209%N :: (b - 32)%N :: lower_utf8 l''
            else a :: b :: lower_utf8 l''
          else (if (65 <=? a)%N && (a <=? 90)%N then (a + 32)%N else a) :: lower_utf8 l'
      | [] => [if (65 <=? a)%N && (a <=? 90)%N then (a + 32)%N else a]
      end
  end.

Definition lower_ascii_cyrillic (s : string) : string :=
  String.string_of_list_ascii
    (Ascii.ascii_of_N <$> lower_utf8 (Ascii.N_of_ascii <$> String.list_ascii_of_string s)).

(** ** Vocabulary of the properties *)

(** The left-to-right float sum of [price * quantity] over a cart's items. *)
Definition cart_sum (l : list Product) : option float :=
  py_sum (line_total <$> l).

Definition total_is_sum (c : Cart) : Prop :=
  cart_sum (items c) = Some (total c).

Definition total_invariant (s : Stores) : Prop :=
  ∀ uid c, carts s !! uid = Some c → total_is_sum c.

(** The sum of [price * quantity] over a list of items, in the words of the
    property rather than of the handlers: each quantity is converted to
    float, the products are added to [acc] in list order, and there is no sum
    ([None]) when a quantity has no float. *)
Fixpoint sum_price_quantity_from (acc : float) (l : list Product) : option float :=
  match l with
  | [] => Some acc
  | p :: l' =>
      match PyLong_AsDouble (quantity p) with
      | Some q => sum_price_quantity_from (acc + price p * q)%float l'
      | None => None
      end
  end.

Definition sum_price_quantity (l : list Product) : option float :=
  sum_price_quantity_from 0%float l.

(** The user has no cart yet, or a cart as get_cart creates it. *)
Definition fresh_cart (uid : string) (s : Stores) : Prop :=
  carts s !! uid = None ∨ carts s !! uid = Some (new_cart uid).

(** The user whose cart a cart request works on. *)
Definition cart_request_user (r : cart_request) : string :=
  match r with
  | GetCart uid | AddProduct uid _ | RemoveProduct uid _ | Checkout uid _ _ => uid
  end.

(** Whether a call for a user leaves that user's total on the sum of the
    items, given whether it was there before ([kept]): a checkout that
    returns starts the cart anew; a remove_product that gets past its
    NotFound checks (it returns, or raises [OverflowError] after the
    deletion) and an add_product that raises [OverflowError] do not keep it;
    every other call leaves things as they were. *)
Definition keeps_sum (r : cart_request) (s : Stores) (kept : bool) : bool :=
  match r, (handle_cart r s).2 with
  | Checkout _ _ _, Return _ => true
  | RemoveProduct _ _, Return _ => false
  | RemoveProduct _ _, Raise OverflowError => false
  | AddProduct _ _, Raise OverflowError => false
  | _, _ => kept
  end.

(** [keeps_sum] along a run, for the calls made for [uid]; the calls for
    other users do not count. *)
Fixpoint sum_kept (uid : string) (rs : list cart_request) (s : Stores) (kept : bool)
  : bool :=
  match rs with
  | [] => kept
  | r :: rs' =>
      sum_kept uid rs' (handle_cart r s).1
        (if decide (cart_request_user r = uid) then keeps_sum r s kept else kept)
  end.

(** The call neither removes an item nor ends in [OverflowError]. *)
Definition quiet (r : cart_request) (s : Stores) : bool :=
  match (handle_cart r s).2 with
  | Raise OverflowError => false
  | Raise (HTTPException _ _) => true
  | Return _ => match r with RemoveProduct _ _ => false | _ => true end
  end.

Fixpoint quiet_run (rs : list cart_request) (s : Stores) : bool :=
  match rs with
  | [] => true
  | r :: rs' => quiet r s && quiet_run rs' (handle_cart r s).1
  end.

Definition cart_missing_or_empty (s : Stores) (uid : string) : Prop :=
  carts s !! uid = None ∨ ∃ c, carts s !! uid = Some c ∧ items c = [].

Definition no_such_item (s : Stores) (uid pid : string) : Prop :=
  carts s !! uid = None
  ∨ ∃ cart, carts s !! uid = Some cart
            ∧ Forall (λ x, product_id x ≠ pid) (items cart).

(** Equal up to case, in the sense of the handlers: equal after [str.lower]. *)
Definition same_ignoring_case (str_lower : string → string) (a b : string) : Prop :=
  str_lower a = str_lower b.

(** The list get_user_addresses answers with. *)
Definition addresses_of (uid : string) (s : Stores) : list DeliveryAddress :=
  default [] (user_addresses s !! uid).

(** The addresses a sequence of requests adds for one user, in call order. *)
Fixpoint added_for (uid : string) (rs : list request) : list DeliveryAddress :=
  match rs with
  | [] => []
  | AddDeliveryAddress uid' addr :: rs' =>
      if decide (uid' = uid) then addr :: added_for uid rs' else added_for uid rs'
  | _ :: rs' => added_for uid rs'
  end.

(** Some checkout among the requests is given [oid] by [uuid.uuid4()]. *)
Fixpoint generates (oid : string) (rs : list request) : bool :=
  match rs with
  | [] => false
  | CartRequest (Checkout _ _ uuid) :: rs' =>
      if decide (uuid = oid) then true else generates oid rs'
  | _ :: rs' => generates oid rs'
  end.

(** Every cart is stored under its own [user_id]. *)
Definition carts_keyed (s : Stores) : Prop :=
  ∀ uid c, carts s !! uid = Some c → user_id c = uid.

(** Every delivery is stored under its own [order_id] and is "Processing". *)
Definition deliveries_keyed (s : Stores) : Prop :=
  ∀ oid d, deliveries s !! oid = Some d → order_id d = oid ∧ status d = "Processing".

(** No user is mapped to an empty list of addresses. *)
Definition addresses_nonempty (s : Stores) : Prop :=
  ∀ uid l, user_addresses s !! uid = Some l → l ≠ [].

(** ** Worked data *)

Definition laptop : Product := mkProduct "p-1" "Ноутбук" 1200.99 1.
Definition cable : Product := mkProduct "p-2" "Кабель" 0.1 3.
Definition kyiv : DeliveryAddress :=
  mkDeliveryAddress "a-1" "Вулиця Шевченка, 10" "Київ" "01001" "Україна".

Definition quiet_example : list cart_request :=
  [GetCart "ann"; AddProduct "ann" laptop; AddProduct "ann" cable;
   RemoveProduct "ann" "p-9"; Checkout "bob" kyiv "o-1";
   AddProduct "bob" cable; Checkout "bob" kyiv "o-2"; AddProduct "bob" laptop].

Definition tenth : Product := mkProduct "a" "A" 0.1 1.
Definition fifth : Product := mkProduct "b" "B" 0.2 1.
Definition two_fifths : Product := mkProduct "c" "C" 0.4 1.
Definition huge : Product := mkProduct "h" "H" 1 (2 ^ 1024).

Definition ten_twice : Product := mkProduct "p-3" "Миша" 10 2.
Definition ten_twice_stores : Stores :=
  run_cart [AddProduct "ann" ten_twice] empty_stores.

Definition huge_stores : Stores := run_cart [AddProduct "u" huge] empty_stores.

Definition two_item_stores : Stores :=
  run_cart [AddProduct "ann" laptop; AddProduct "ann" cable] empty_stores.

Definition three_item_stores : Stores :=
  run_cart [AddProduct "u" tenth; AddProduct "u" fifth; AddProduct "u" two_fifths]
    empty_stores.

Definition half : Product := mkProduct "d" "D" 0.5 1.
Definition quarter_twice : Product := mkProduct "e" "E" 0.25 2.
Definition half_stores : Stores :=
  run_cart [AddProduct "u" half; AddProduct "u" quarter_twice] empty_stores.

Definition pen : Product := mkProduct "p-7" "Ручка" 1.5 2.
Definition pen_again : Product := mkProduct "p-7" "Ручка синя" 2.25 4.
Definition twin_stores : Stores :=
  run_cart [AddProduct "ann" cable; AddProduct "ann" pen; AddProduct "ann" pen_again]
    empty_stores.

Definition lviv : DeliveryAddress :=
  mkDeliveryAddress "a-5" "Вулиця Грушевського, 15" "Львів" "79000" "Україна".
Definition odesa : DeliveryAddress :=
  mkDeliveryAddress "a-6" "Вулиця Незалежності, 22" "Одеса" "65000" "Україна".

Definition reset_example : list cart_request :=
  [AddProduct "ann" tenth; AddProduct "ann" fifth; RemoveProduct "ann" "a";
   AddProduct "bob" laptop; AddProduct "bob" cable; Checkout "ann" kyiv "o-1";
   AddProduct "ann" cable].

Definition order_example : list request :=
  [CartRequest (AddProduct "ann" laptop); CartRequest (Checkout "ann" kyiv "o-1");
   CartRequest (AddProduct "bob" cable); AddDeliveryAddress "ann" lviv;
   CartRequest (Checkout "bob" odesa "o-2"); GetDeliveryInfo "o-1";
   CartRequest (Checkout "ann" kyiv "o-3"); CartRequest (GetCart "eve")].

(** * Properties *)

(** ** Conversion of ints *)

(** Small ints convert exactly, ints beyond 2^53 round to nearest even, and
    the first int that does not convert is [2^1024 - 2^970]. *)
Lemma PyLong_AsDouble_examples :
  PyLong_AsDouble 2 = Some 2%float
  ∧ PyLong_AsDouble (-3) = Some (-3)%float
  ∧ PyLong_AsDouble (2 ^ 53 + 1) = Some 9007199254740992%float
  ∧ PyLong_AsDouble (2 ^ 53 + 3) = Some 9007199254740996%float
  ∧ PyLong_AsDouble (2 ^ 1024 - 2 ^ 970 - 1) = Some 1.7976931348623157e+308%float
  ∧ PyLong_AsDouble (2 ^ 1024 - 2 ^ 970) = None
  ∧ PyLong_AsDouble (- 2 ^ 1024) = None.
Proof. repeat split; vm_compute; reflexivity. Qed.

(** ** The loop and the deletion *)

Lemma find_product_None pid l :
  find_product pid l = None ↔ Forall (λ x, product_id x ≠ pid) l.
Proof.
  induction l as [|item l IH]; simpl.
  - split; [constructor | done].
  - destruct (String.eqb_spec (product_id item) pid) as [Heq|Hne].
    + split; [done | inversion 1; contradiction].
    + rewrite IH. split; [by constructor | by inversion 1].
Qed.

Lemma find_product_Some pid l p :
  find_product pid l = Some p →
  ∃ before after,
    l = before ++ p :: after ∧ product_id p = pid ∧
    Forall (λ x, product_id x ≠ pid) before ∧
    remove_found pid l = before ++ after.
Proof.
  induction l as [|item l IH]; simpl; [done|].
  destruct (String.eqb_spec (product_id item) pid) as [Heq|Hne].
  - intros [= <-]. by exists [], l.
  - intros Hf. destruct (IH Hf) as (before & after & -> & Hid & Hall & Hrm).
    exists (item :: before), after. rewrite Hrm. by repeat split; [|constructor].
Qed.

Lemma find_product_first pid before p after :
  product_id p = pid →
  Forall (λ x, product_id x ≠ pid) before →
  find_product pid (before ++ p :: after) = Some p ∧
  remove_found pid (before ++ p :: after) = before ++ after.
Proof.
  intros Hid. induction 1 as [|x before Hx _ IH]; simpl.
  - destruct (String.eqb_spec (product_id p) pid); done.
  - destruct (String.eqb_spec (product_id x) pid); [done|].
    destruct IH as [-> ->]. done.
Qed.

(** ** The running total *)

Lemma sum_from_app acc l1 l2 :
  sum_from acc (l1 ++ l2) = a ← sum_from acc l1; sum_from a l2.
Proof.
  revert acc. induction l1 as [|t l1 IH]; intros acc; simpl; [done|].
  destruct t as [x|]; simpl; [apply IH | done].
Qed.

Lemma cart_sum_snoc l p t c :
  cart_sum l = Some t → line_total p = Some c →
  cart_sum (l ++ [p]) = Some (t + c)%float.
Proof.
  unfold cart_sum, py_sum. intros Hl Hp.
  rewrite fmap_app, sum_from_app, Hl. simpl. by rewrite Hp.
Qed.

Lemma new_cart_total_is_sum uid : total_is_sum (new_cart uid).
Proof. reflexivity. Qed.

Lemma total_invariant_empty : total_invariant empty_stores.
Proof. intros uid c. simpl. by rewrite lookup_empty. Qed.

Lemma total_invariant_insert s uid c :
  total_invariant s → total_is_sum c →
  total_invariant (set_carts <[uid := c]> s).
Proof.
  intros Hs Hc uid' c'. simpl. rewrite lookup_insert.
  case_decide; [by intros [= <-] | apply Hs].
Qed.

Lemma get_cart_invariant uid s :
  total_invariant s → total_invariant (get_cart uid s).1.
Proof.
  intros Hs. unfold get_cart. destruct (carts s !! uid) eqn:Hc; simpl; [done|].
  apply (total_invariant_insert s); [done | apply new_cart_total_is_sum].
Qed.

Lemma add_product_invariant uid product c s :
  line_total product = Some c →
  total_invariant s → total_invariant (add_product_to_cart uid product s).1.
Proof.
  intros Hp Hs. unfold add_product_to_cart. rewrite Hp. simpl.
  intros uid' c'. simpl. rewrite lookup_insert.
  case_decide as Hu; [|rewrite lookup_insert_ne by done; apply Hs].
  intros [= <-]. unfold total_is_sum. simpl. apply cart_sum_snoc; [|done].
  destruct (carts s !! uid) as [cart|] eqn:Hc; simpl; [by apply (Hs uid) | done].
Qed.

Lemma checkout_invariant uid addr uuid s :
  total_invariant s → total_invariant (checkout uid addr uuid s).1.
Proof.
  intros Hs. unfold checkout.
  destruct (carts s !! uid) as [cart|]; [|done].
  destruct (length (items cart) =? 0)%nat; [done|].
  destruct (py_sum _); [|done]. simpl.
  intros uid' c'. simpl. rewrite lookup_insert.
  case_decide; [intros [= <-]; apply new_cart_total_is_sum | apply Hs].
Qed.

(** ** Calls that raise before they write *)

Lemma remove_product_http_unchanged uid pid s code detail :
  (remove_product_from_cart uid pid s).2 = Raise (HTTPException code detail) →
  (remove_product_from_cart uid pid s).1 = s.
Proof.
  unfold remove_product_from_cart.
  destruct (carts s !! uid) as [cart|]; [|done].
  destruct (find_product pid (items cart)) as [p|]; [|done].
  destruct (line_total p); simpl; discriminate.
Qed.

Lemma checkout_raise_unchanged uid addr uuid s e :
  (checkout uid addr uuid s).2 = Raise e → (checkout uid addr uuid s).1 = s.
Proof.
  unfold checkout.
  destruct (carts s !! uid) as [cart|]; [|done].
  destruct (length (items cart) =? 0)%nat; [done|].
  destruct (py_sum _); simpl; [discriminate | done].
Qed.

(** ** Runs without a successful removal and without overflow *)

Lemma respond_fst {A B} (f : A → B) (h : handler A) s :
  (respond f h s).1 = (h s).1.
Proof. unfold respond. by destruct (h s). Qed.

Lemma respond_snd {A B} (f : A → B) (h : handler A) s :
  (respond f h s).2 = map_outcome f (h s).2.
Proof. unfold respond. by destruct (h s). Qed.

Lemma quiet_step_invariant r s :
  quiet r s = true → total_invariant s → total_invariant (handle_cart r s).1.
Proof.
  unfold quiet. destruct r as [uid|uid product|uid pid|uid addr uuid]; simpl;
    rewrite respond_fst, respond_snd.
  - intros _. apply get_cart_invariant.
  - intros Hq. destruct (line_total product) as [c|] eqn:Hp.
    + by apply add_product_invariant with c.
    + unfold add_product_to_cart in Hq. by rewrite Hp in Hq.
  - destruct (remove_product_from_cart uid pid s).2 as [c|[code detail|]] eqn:Ho;
      simpl; [done| |done].
    intros _ Hs. by rewrite (remove_product_http_unchanged _ _ _ _ _ Ho).
  - intros _. apply checkout_invariant.
Qed.

Lemma quiet_run_invariant rs s :
  quiet_run rs s = true → total_invariant s → total_invariant (run_cart rs s).
Proof.
  revert s. induction rs as [|r rs IH]; intros s; simpl; [done|].
  intros [Hq Hrs]%andb_true_iff Hs. apply IH; [done|].
  by apply quiet_step_invariant.
Qed.

(** Whole runs: starting from empty stores, after every sequence of
    get_cart, add_product, remove_product and checkout calls in which no
    remove_product call succeeds and no call ends in [OverflowError], every
    cart in the Cart Store has [total] equal to the left-to-right float sum
    of [price * quantity] over its [items]. *)
Theorem total_is_sum_without_removal (rs : list cart_request) :
  quiet_run rs empty_stores = true →
  total_invariant (run_cart rs empty_stores).
Proof.
  intros Hq. apply quiet_run_invariant; [done | apply total_invariant_empty].
Qed.

Lemma total_is_sum_without_removal_witness :
  quiet_run quiet_example empty_stores = true ∧
  total_invariant (run_cart quiet_example empty_stores).
Proof.
  split; [vm_compute; reflexivity|].
  apply (total_is_sum_without_removal quiet_example). vm_compute. reflexivity.
Defined.

(** C1 as stated fails.  After adding items priced 0.1 and 0.2 and removing
    the first, [total] is 0.20000000000000004 while the remaining item sums
    to 0.2; and an add_product whose quantity does not convert to float
    leaves the item in the cart with [total] not updated. *)
Lemma total_is_sum_counterexample :
  (∃ c, carts (run_cart [AddProduct "u" tenth; AddProduct "u" fifth;
                         RemoveProduct "u" "a"] empty_stores) !! "u" = Some c
        ∧ items c = [fifth]
        ∧ total c = 0.20000000000000004%float
        ∧ cart_sum (items c) = Some 0.2%float
        ∧ ¬ total_is_sum c)
  ∧ (∃ c, carts (run_cart [AddProduct "u" huge] empty_stores) !! "u" = Some c
        ∧ items c = [huge] ∧ total c = 0%float ∧ cart_sum (items c) = None
        ∧ ¬ total_is_sum c).
Proof.
  split; eexists; (split; [vm_compute; reflexivity|]);
    repeat split; try (vm_compute; reflexivity); vm_compute; discriminate.
Qed.

(** The second sentence of the claim, on its own: add_product calls on a
    cart keep every added item, in order, and the running total. *)
Lemma add_products_run uid ps : ∀ s c0 t,
  carts s !! uid = Some c0 →
  sum_from (total c0) (line_total <$> ps) = Some t →
  carts (run_cart (AddProduct uid <$> ps) s) !! uid
  = Some (mkCart (user_id c0) (items c0 ++ ps) t).
Proof.
  induction ps as [|p ps IH]; intros s c0 t Hc; simpl.
  - intros [= <-]. rewrite app_nil_r. by destruct c0.
  - destruct (line_total p) as [x|] eqn:Hp; simpl; [|done]. intros Ht.
    rewrite respond_fst. unfold add_product_to_cart. rewrite Hp, Hc. simpl.
    erewrite IH; [| simpl; apply lookup_insert_eq | simpl; exact Ht].
    simpl. by rewrite <- app_assoc.
Qed.

(** X1: for a user without a cart, get_cart followed by add_product calls
    for the products [ps], whose quantities all convert to float, leaves the
    cart holding exactly [ps] in call order, with [total] their left-to-right
    float sum of [price * quantity]. *)
Lemma add_only_fresh_cart uid ps s t :
  carts s !! uid = None → cart_sum ps = Some t →
  carts (run_cart (GetCart uid :: (AddProduct uid <$> ps)) s) !! uid
  = Some (mkCart uid ps t).
Proof.
  intros Hc Ht. simpl. rewrite respond_fst. unfold get_cart. rewrite Hc. simpl.
  by erewrite add_products_run; [| simpl; apply lookup_insert_eq | exact Ht].
Qed.

(** ** When the sums are defined *)

Lemma sum_from_is_Some l : ∀ acc, is_Some (sum_from acc l) ↔ Forall is_Some l.
Proof.
  induction l as [|t l IH]; intros acc; simpl.
  - split; [constructor | by eexists].
  - destruct t as [x|]; simpl.
    + rewrite IH. split; [by constructor | by inversion 1].
    + split; [by intros [? ?] | inversion 1 as [|? ? [? ?]]; done].
Qed.

(** The sum of checkout is computed exactly when every quantity in the cart
    converts to float, and so is the sum of [price * quantity]. *)
Lemma checkout_sum_defined l :
  is_Some (py_sum (checkout_term <$> l))
  ↔ Forall (λ p, is_Some (PyLong_AsDouble (quantity p))) l.
Proof.
  unfold py_sum. rewrite sum_from_is_Some, Forall_fmap. apply Forall_iff.
  intros p. unfold checkout_term, int_mul_float. simpl.
  destruct (PyLong_AsDouble (quantity p)); simpl; split; by (intros [? ?] || eexists).
Qed.

Lemma cart_sum_defined l :
  is_Some (cart_sum l)
  ↔ Forall (λ p, is_Some (PyLong_AsDouble (quantity p))) l.
Proof.
  unfold cart_sum, py_sum. rewrite sum_from_is_Some, Forall_fmap. apply Forall_iff.
  intros p. unfold line_total, float_mul_int. simpl.
  destruct (PyLong_AsDouble (quantity p)); simpl; split; by (intros [? ?] || eexists).
Qed.

(** ** checkout *)

Lemma length_eqb_0 {A} (l : list A) : (length l =? 0)%nat = true ↔ l = [].
Proof. destruct l; simpl; split; done. Qed.





Lemma checkout_invalid_iff s uid addr uuid :
  (checkout uid addr uuid s).2 = Raise (HTTPException 400 "Кошик порожній")
  ↔ cart_missing_or_empty s uid.
Proof.
  unfold checkout, cart_missing_or_empty.
  destruct (carts s !! uid) as [cart|]; [|by split; [left|]].
  destruct (length (items cart) =? 0)%nat eqn:Hlen.
  - apply length_eqb_0 in Hlen. split; [|done]. intros _. right. by exists cart.
  - split.
    + by destruct (py_sum _).
    + intros [|(c & [= <-] & Hnil)]; [done|].
      apply length_eqb_0 in Hnil. congruence.
Qed.

(** C3: checkout fails with InvalidState (HTTP 400) if and only if the
    user's cart is absent from the Cart Store or has zero items; the
    exception is the 400 "empty cart" one; and in that case the stores,
    the Delivery Store among them, are unchanged: no DeliveryInfo is
    created. *)
Theorem checkout_invalid_state s uid addr uuid :
  ((∃ e, (checkout uid addr uuid s).2 = Raise e ∧ InvalidState e)
   ↔ cart_missing_or_empty s uid)
  ∧ (cart_missing_or_empty s uid →
     checkout uid addr uuid s = (s, Raise (HTTPException 400 "Кошик порожній"))
     ∧ deliveries (checkout uid addr uuid s).1 = deliveries s).
Proof.
  split.
  - rewrite <- (checkout_invalid_iff s uid addr uuid). split.
    + intros (e & He & detail & ->). revert He. unfold checkout.
      destruct (carts s !! uid) as [cart|]; [|done].
      destruct (length (items cart) =? 0)%nat; [done|].
      by destruct (py_sum _).
    + intros He. eexists. split; [exact He | by eexists].
  - intros He. apply (checkout_invalid_iff s uid addr uuid) in He as Ho.
    pose proof (checkout_raise_unchanged _ _ _ _ _ Ho) as Hs.
    destruct (checkout uid addr uuid s) as [s' o]. simpl in *. by subst.
Qed.

Lemma checkout_invalid_state_witness :
  cart_missing_or_empty two_item_stores "bob"
  ∧ checkout "bob" kyiv "o-1" two_item_stores
    = (two_item_stores, Raise (HTTPException 400 "Кошик порожній"))
  ∧ cart_missing_or_empty (get_cart "bob" two_item_stores).1 "bob"
  ∧ deliveries (checkout "bob" kyiv "o-1" (get_cart "bob" two_item_stores).1).1
    = deliveries (get_cart "bob" two_item_stores).1
  ∧ ¬ cart_missing_or_empty two_item_stores "ann".
Proof.
  assert (cart_missing_or_empty two_item_stores "bob") as Hbob.
  { left. vm_compute; reflexivity. }
  assert (cart_missing_or_empty (get_cart "bob" two_item_stores).1 "bob") as Hnew.
  { right. eexists. split; [vm_compute; reflexivity | reflexivity]. }
  split; [exact Hbob|].
  split; [apply (proj2 (checkout_invalid_state two_item_stores "bob" kyiv "o-1") Hbob)|].
  split; [exact Hnew|].
  split.
  { apply (proj2 (checkout_invalid_state (get_cart "bob" two_item_stores).1
                    "bob" kyiv "o-1") Hnew). }
  intros Hann.
  apply (proj2 (proj1 (checkout_invalid_state two_item_stores "ann" kyiv "o-1"))) in Hann.
  destruct Hann as (e & He & detail & ->). vm_compute in He. discriminate.
Defined.

(** ** remove_product_from_cart *)

Lemma set_carts_twice uid c1 c2 s :
  set_carts <[uid := c2]> (set_carts <[uid := c1]> s) = set_carts <[uid := c2]> s.
Proof. unfold set_carts. simpl. by rewrite insert_insert_eq. Qed.

(** What a call does once the loop has found an item. *)
Lemma remove_product_found s uid pid cart before p after :
  carts s !! uid = Some cart →
  items cart = before ++ p :: after →
  product_id p = pid →
  Forall (λ x, product_id x ≠ pid) before →
  remove_product_from_cart uid pid s
  = match line_total p with
    | Some c =>
        let cart' := mkCart (user_id cart) (before ++ after) (total cart - c)%float in
        (set_carts <[uid := cart']> s, Return cart')
    | None =>
        (set_carts <[uid := mkCart (user_id cart) (before ++ after) (total cart)]> s,
         Raise OverflowError)
    end.
Proof.
  intros Hc Hitems Hid Hbefore. unfold remove_product_from_cart. rewrite Hc, Hitems.
  destruct (find_product_first pid before p after Hid Hbefore) as [-> ->].
  destruct (line_total p); simpl; [by rewrite set_carts_twice | done].
Qed.

Lemma remove_product_not_found_iff s uid pid :
  (∃ e, (remove_product_from_cart uid pid s).2 = Raise e ∧ NotFound e)
  ↔ no_such_item s uid pid.
Proof.
  unfold remove_product_from_cart, no_such_item.
  destruct (carts s !! uid) as [cart|].
  - destruct (find_product pid (items cart)) as [p|] eqn:Hf.
    + split.
      * intros (e & He & detail & ->). by destruct (line_total p).
      * intros [|(c & [= <-] & Hall)]; [done|].
        apply find_product_None in Hall. congruence.
    + split.
      * intros _. right. exists cart. by rewrite <- find_product_None.
      * intros _. eexists. split; [done | by eexists].
  - split; [by left|]. intros _. eexists. split; [done | by eexists].
Qed.

Lemma remove_product_returns s uid pid cart' :
  (remove_product_from_cart uid pid s).2 = Return cart' →
  ∃ cart before p after c,
    carts s !! uid = Some cart
    ∧ items cart = before ++ p :: after
    ∧ product_id p = pid
    ∧ Forall (λ x, product_id x ≠ pid) before
    ∧ line_total p = Some c
    ∧ cart' = mkCart (user_id cart) (before ++ after) (total cart - c)%float
    ∧ (remove_product_from_cart uid pid s).1 = set_carts <[uid := cart']> s.
Proof.
  destruct (carts s !! uid) as [cart|] eqn:Hc;
    [|unfold remove_product_from_cart; by rewrite Hc].
  destruct (find_product pid (items cart)) as [p|] eqn:Hf;
    [|unfold remove_product_from_cart; by rewrite Hc, Hf].
  destruct (find_product_Some _ _ _ Hf) as (before & after & Hitems & Hid & Hall & _).
  rewrite (remove_product_found s uid pid cart before p after) by done.
  destruct (line_total p) as [c|] eqn:Hp; simpl; [|done].
  intros [= <-]. by exists cart, before, p, after, c.
Qed.

Lemma line_total_Some p c :
  line_total p = Some c
  ↔ ∃ q, PyLong_AsDouble (quantity p) = Some q ∧ c = (price p * q)%float.
Proof.
  unfold line_total, float_mul_int.
  destruct (PyLong_AsDouble (quantity p)) as [q|]; simpl; split.
  - intros [= <-]. by exists q.
  - by intros (q' & [= <-] & ->).
  - done.
  - by intros (q' & ? & _).
Qed.

(** C4: remove_product fails with NotFound (HTTP 404) if and only if the
    user's cart does not exist or no item of the cart has the given id.
    When it returns, the item removed is the first one with that id, the
    total is the previous total minus that item's price times its quantity
    (as a float), and the cart returned is the updated cart held in the
    Cart Store, the other stores being as before; and it does return
    whenever the cart holds an item with the id whose quantity converts to
    float. *)
Theorem remove_product_spec s uid pid :
  ((∃ e, (remove_product_from_cart uid pid s).2 = Raise e ∧ NotFound e)
   ↔ no_such_item s uid pid)
  ∧ (∀ cart', (remove_product_from_cart uid pid s).2 = Return cart' →
       ∃ cart before p after q,
         carts s !! uid = Some cart
         ∧ items cart = before ++ p :: after
         ∧ product_id p = pid
         ∧ Forall (λ x, product_id x ≠ pid) before
         ∧ PyLong_AsDouble (quantity p) = Some q
         ∧ items cart' = before ++ after
         ∧ total cart' = (total cart - price p * q)%float
         ∧ user_id cart' = user_id cart
         ∧ carts (remove_product_from_cart uid pid s).1 !! uid = Some cart'
         ∧ (∀ uid', uid' ≠ uid →
              carts (remove_product_from_cart uid pid s).1 !! uid' = carts s !! uid')
         ∧ user_addresses (remove_product_from_cart uid pid s).1 = user_addresses s
         ∧ deliveries (remove_product_from_cart uid pid s).1 = deliveries s)
  ∧ (∀ cart before p after q,
       carts s !! uid = Some cart →
       items cart = before ++ p :: after →
       product_id p = pid →
       Forall (λ x, product_id x ≠ pid) before →
       PyLong_AsDouble (quantity p) = Some q →
       (remove_product_from_cart uid pid s).2
       = Return (mkCart (user_id cart) (before ++ after)
                   (total cart - price p * q)%float)).
Proof.
  split; [apply remove_product_not_found_iff|]. split.
  - intros cart' Hret.
    destruct (remove_product_returns _ _ _ _ Hret)
      as (cart & before & p & after & c & Hc & Hitems & Hid & Hall & Hp & -> & ->).
    apply line_total_Some in Hp as (q & Hq & ->).
    exists cart, before, p, after, q. simpl. rewrite lookup_insert_eq.
    repeat split; try done. intros uid' Hne. by rewrite lookup_insert_ne.
  - intros cart before p after q Hc Hitems Hid Hall Hq.
    rewrite (remove_product_found s uid pid cart before p after) by done.
    assert (line_total p = Some (price p * q)%float) as ->; [|done].
    apply line_total_Some. by exists q.
Qed.

Lemma remove_product_spec_witness :
  (remove_product_from_cart "ann" "p-9" two_item_stores).2
    = Raise (HTTPException 404 "Товар не знайдено в кошику")
  ∧ no_such_item two_item_stores "ann" "p-9"
  ∧ (remove_product_from_cart "bob" "p-1" two_item_stores).2
    = Raise (HTTPException 404 "Кошик не знайдено")
  ∧ no_such_item two_item_stores "bob" "p-1"
  ∧ carts two_item_stores !! "ann" = Some (mkCart "ann" [laptop; cable] 1201.29%float)
  ∧ PyLong_AsDouble (quantity cable) = Some 3%float
  ∧ (remove_product_from_cart "ann" "p-2" two_item_stores).2
    = Return (mkCart "ann" [laptop] 1200.99%float)
  ∧ ∃ cart before p after q,
      carts two_item_stores !! "ann" = Some cart
      ∧ items cart = before ++ p :: after
      ∧ product_id p = "p-2"
      ∧ Forall (λ x, product_id x ≠ "p-2") before
      ∧ PyLong_AsDouble (quantity p) = Some q
      ∧ items (mkCart "ann" [laptop] 1200.99%float) = before ++ after
      ∧ total (mkCart "ann" [laptop] 1200.99%float) = (total cart - price p * q)%float
      ∧ user_id (mkCart "ann" [laptop] 1200.99%float) = user_id cart
      ∧ carts (remove_product_from_cart "ann" "p-2" two_item_stores).1 !! "ann"
        = Some (mkCart "ann" [laptop] 1200.99%float)
      ∧ (∀ uid', uid' ≠ "ann" →
           carts (remove_product_from_cart "ann" "p-2" two_item_stores).1 !! uid'
           = carts two_item_stores !! uid')
      ∧ user_addresses (remove_product_from_cart "ann" "p-2" two_item_stores).1
        = user_addresses two_item_stores
      ∧ deliveries (remove_product_from_cart "ann" "p-2" two_item_stores).1
        = deliveries two_item_stores.
Proof.
  assert (carts two_item_stores !! "ann"
          = Some (mkCart "ann" [laptop; cable] 1201.29%float)) as Hc
    by (vm_compute; reflexivity).
  assert (PyLong_AsDouble (quantity cable) = Some 3%float) as Hq
    by (vm_compute; reflexivity).
  assert ((remove_product_from_cart "ann" "p-2" two_item_stores).2
          = Return (mkCart "ann" [laptop] 1200.99%float)) as Hret.
  { apply (proj2 (proj2 (remove_product_spec two_item_stores "ann" "p-2"))
             (mkCart "ann" [laptop; cable] 1201.29%float) [laptop] cable [] 3%float
             Hc eq_refl eq_refl); [|exact Hq].
    repeat constructor. simpl. discriminate. }
  split; [vm_compute; reflexivity|].
  split.
  { apply (proj1 (remove_product_spec two_item_stores "ann" "p-9")).
    eexists. split; [vm_compute; reflexivity | by eexists]. }
  split; [vm_compute; reflexivity|].
  split.
  { apply (proj1 (remove_product_spec two_item_stores "bob" "p-1")).
    eexists. split; [vm_compute; reflexivity | by eexists]. }
  split; [exact Hc|]. split; [exact Hq|]. split; [exact Hret|].
  exact (proj1 (proj2 (remove_product_spec two_item_stores "ann" "p-2")) _ Hret).
Defined.

(** ** Errors and the stores *)

Lemma map_outcome_raise {A B} (f : A → B) (o : outcome A) e :
  map_outcome f o = Raise e → o = Raise e.
Proof. destruct o; simpl; congruence. Qed.

Lemma handle_cart_http_unchanged r s code detail :
  (handle_cart r s).2 = Raise (HTTPException code detail) →
  (handle_cart r s).1 = s.
Proof.
  destruct r as [uid|uid product|uid pid|uid addr uuid]; simpl;
    rewrite respond_fst, respond_snd; intros Ho%map_outcome_raise.
  - unfold get_cart in Ho. by destruct (carts s !! uid).
  - unfold add_product_to_cart in Ho. by destruct (line_total product).
  - by eapply remove_product_http_unchanged.
  - by eapply checkout_raise_unchanged.
Qed.

Lemma handle_http_unchanged str_lower r s code detail :
  (handle str_lower r s).2 = Raise (HTTPException code detail) →
  (handle str_lower r s).1 = s.
Proof.
  destruct r as [r|req|oid|req|uid|uid addr]; simpl;
    rewrite ?respond_fst, ?respond_snd; try done.
  - intros Ho%map_outcome_raise. by eapply handle_cart_http_unchanged.
  - intros _. unfold get_delivery_info. by destruct (deliveries s !! oid).
Qed.

(** C5 (amended): whenever remove_product raises NotFound, or checkout
    raises any error, all three stores are exactly as they were before the
    call; and so they are whenever a handler of any of the nine routes
    raises an HTTP error. *)
Theorem failed_call_leaves_stores s :
  (∀ uid pid e,
     (remove_product_from_cart uid pid s).2 = Raise e → NotFound e →
     (remove_product_from_cart uid pid s).1 = s)
  ∧ (∀ uid addr uuid e,
       (checkout uid addr uuid s).2 = Raise e →
       (checkout uid addr uuid s).1 = s)
  ∧ (∀ str_lower r code detail,
       (handle str_lower r s).2 = Raise (HTTPException code detail) →
       (handle str_lower r s).1 = s).
Proof.
  split; [|split].
  - intros uid pid e He [detail ->]. by eapply remove_product_http_unchanged.
  - intros uid addr uuid e. apply checkout_raise_unchanged.
  - intros str_lower r code detail. apply handle_http_unchanged.
Qed.

Lemma failed_call_leaves_stores_witness :
  (remove_product_from_cart "ann" "p-9" two_item_stores).2
    = Raise (HTTPException 404 "Товар не знайдено в кошику")
  ∧ (remove_product_from_cart "ann" "p-9" two_item_stores).1 = two_item_stores
  ∧ (checkout "bob" kyiv "o-1" two_item_stores).2
    = Raise (HTTPException 400 "Кошик порожній")
  ∧ (checkout "bob" kyiv "o-1" two_item_stores).1 = two_item_stores
  ∧ (checkout "u" kyiv "o-1" huge_stores).2 = Raise OverflowError
  ∧ (checkout "u" kyiv "o-1" huge_stores).1 = huge_stores
  ∧ (handle lower_ascii_cyrillic (GetDeliveryInfo "o-9") two_item_stores).2
    = Raise (HTTPException 404 "Інформацію про доставку не знайдено")
  ∧ (handle lower_ascii_cyrillic (GetDeliveryInfo "o-9") two_item_stores).1
    = two_item_stores.
Proof.
  split; [vm_compute; reflexivity|].
  split.
  { apply (proj1 (failed_call_leaves_stores two_item_stores) "ann" "p-9"
             (HTTPException 404 "Товар не знайдено в кошику"));
      [vm_compute; reflexivity | by eexists]. }
  split; [vm_compute; reflexivity|].
  split.
  { apply (proj1 (proj2 (failed_call_leaves_stores two_item_stores)) "bob" kyiv "o-1"
             (HTTPException 400 "Кошик порожній")).
    vm_compute; reflexivity. }
  split; [vm_compute; reflexivity|].
  split.
  { apply (proj1 (proj2 (failed_call_leaves_stores huge_stores))
             "u" kyiv "o-1" OverflowError).
    vm_compute; reflexivity. }
  split; [vm_compute; reflexivity|].
  apply (proj2 (proj2 (failed_call_leaves_stores two_item_stores))
           lower_ascii_cyrillic (GetDeliveryInfo "o-9") 404%Z
           "Інформацію про доставку не знайдено").
  vm_compute; reflexivity.
Defined.

(** C5 as stated fails: on the cart holding the item whose quantity does
    not convert to float, remove_product deletes the item from the list and
    then raises [OverflowError] while computing the amount to subtract. *)
Lemma failed_call_leaves_stores_counterexample :
  carts huge_stores !! "u" = Some (mkCart "u" [huge] 0%float)
  ∧ (remove_product_from_cart "u" "h" huge_stores).2 = Raise OverflowError
  ∧ carts (remove_product_from_cart "u" "h" huge_stores).1 !! "u"
    = Some (mkCart "u" [] 0%float)
  ∧ (remove_product_from_cart "u" "h" huge_stores).1 ≠ huge_stores.
Proof.
  repeat split; try (vm_compute; reflexivity).
  intros Heq. apply (f_equal (λ s, items <$> carts s !! "u")) in Heq.
  vm_compute in Heq. discriminate.
Qed.

(** ** Removing an item and adding it back *)

(** C9 (amended): after a successful remove_product of an item, add_product
    of a product with the same price and quantity succeeds, puts the new
    product at the end of the list, and leaves [total = (t - c) + c] in float
    arithmetic, where [t] is the total before the removal and
    [c = price * quantity]; that is [t] whenever subtracting and adding [c]
    round-trips at [t]. *)
Theorem remove_then_add_total s uid pid cart p c p' :
  carts s !! uid = Some cart →
  find_product pid (items cart) = Some p →
  line_total p = Some c →
  price p' = price p → quantity p' = quantity p →
  ∃ s1 c1 s2 c2,
    remove_product_from_cart uid pid s = (s1, Return c1)
    ∧ add_product_to_cart uid p' s1 = (s2, Return c2)
    ∧ carts s2 !! uid = Some c2
    ∧ items c2 = remove_found pid (items cart) ++ [p']
    ∧ total c2 = (total cart - c + c)%float
    ∧ ((total cart - c + c)%float = total cart → total c2 = total cart).
Proof.
  intros Hc Hf Hp Hprice Hqty.
  destruct (find_product_Some _ _ _ Hf) as (before & after & Hitems & Hid & Hall & Hrm).
  assert (line_total p' = Some c) as Hp'.
  { unfold line_total in *. by rewrite Hprice, Hqty. }
  rewrite (remove_product_found s uid pid cart before p after) by done.
  rewrite Hp, Hrm. cbv zeta. do 4 eexists. split; [reflexivity|].
  unfold add_product_to_cart. cbn [carts set_carts].
  rewrite lookup_insert_eq, Hp'. cbn [default items total user_id].
  split; [reflexivity|]. cbn [carts set_carts]. by rewrite lookup_insert_eq.
Qed.

Lemma remove_then_add_total_witness :
  carts half_stores !! "u" = Some (mkCart "u" [half; quarter_twice] 1%float)
  ∧ ∃ s1 c1 s2 c2,
      remove_product_from_cart "u" "d" half_stores = (s1, Return c1)
      ∧ add_product_to_cart "u" (mkProduct "d2" "D" 0.5 1) s1 = (s2, Return c2)
      ∧ carts s2 !! "u" = Some c2
      ∧ items c2 = remove_found "d" [half; quarter_twice] ++ [mkProduct "d2" "D" 0.5 1]
      ∧ total c2 = (1 - 0.5 + 0.5)%float
      ∧ ((1 - 0.5 + 0.5)%float = 1%float → total c2 = 1%float).
Proof.
  split; [vm_compute; reflexivity|].
  apply (remove_then_add_total half_stores "u" "d"
           (mkCart "u" [half; quarter_twice] 1%float) half 0.5%float
           (mkProduct "d2" "D" 0.5 1)).
  - vm_compute; reflexivity.
  - reflexivity.
  - vm_compute; reflexivity.
  - reflexivity.
  - reflexivity.
Defined.

(** C9 as stated fails: with items priced 0.1, 0.2 and 0.4 the total is
    0.7000000000000001; removing the 0.2 item gives 0.5, and adding a product
    of price 0.2 and quantity 1 gives 0.7. *)
Lemma remove_then_add_total_counterexample :
  ∃ c0 c1 c2,
    carts three_item_stores !! "u" = Some c0
    ∧ (remove_product_from_cart "u" "b" three_item_stores).2 = Return c1
    ∧ carts (run_cart [RemoveProduct "u" "b"; AddProduct "u" (mkProduct "b2" "B" 0.2 1)]
               three_item_stores) !! "u" = Some c2
    ∧ total c0 = 0.7000000000000001%float
    ∧ total c1 = 0.5%float
    ∧ total c2 = 0.7%float
    ∧ total c2 ≠ total c0.
Proof.
  do 3 eexists. repeat split; try (vm_compute; reflexivity).
  vm_compute. discriminate.
Qed.

(** ** Items that share an id *)

(** C10: add_product appends whatever product it is given, whether or not
    the cart already holds an item with that id; and when several items
    share an id, remove_product with that id deletes only the first of them
    in list order, subtracts only that item's [price * quantity], and keeps
    every item after it, the other items with the same id included. *)
Theorem duplicate_ids_first_removed s uid :
  (∀ p c, line_total p = Some c →
     ∃ s' cart',
       add_product_to_cart uid p s = (s', Return cart')
       ∧ carts s' !! uid = Some cart'
       ∧ items cart' = items (default (new_cart uid) (carts s !! uid)) ++ [p])
  ∧ (∀ pid cart before p after c,
       carts s !! uid = Some cart →
       items cart = before ++ p :: after →
       product_id p = pid →
       Forall (λ x, product_id x ≠ pid) before →
       line_total p = Some c →
       ∃ s' cart',
         remove_product_from_cart uid pid s = (s', Return cart')
         ∧ carts s' !! uid = Some cart'
         ∧ items cart' = before ++ after
         ∧ total cart' = (total cart - c)%float).
Proof.
  split.
  - intros p c Hp. unfold add_product_to_cart. rewrite Hp. cbv zeta.
    do 2 eexists. split; [reflexivity|].
    cbn [carts set_carts items]. by rewrite lookup_insert_eq.
  - intros pid cart before p after c Hc Hitems Hid Hall Hp.
    rewrite (remove_product_found s uid pid cart before p after) by done.
    rewrite Hp. cbv zeta. do 2 eexists. split; [reflexivity|].
    cbn [carts set_carts items total]. by rewrite lookup_insert_eq.
Qed.

Lemma duplicate_ids_first_removed_witness :
  (∃ s' cart',
     add_product_to_cart "ann" pen_again
       (run_cart [AddProduct "ann" cable; AddProduct "ann" pen] empty_stores)
     = (s', Return cart')
     ∧ carts s' !! "ann" = Some cart'
     ∧ items cart' = [cable; pen] ++ [pen_again])
  ∧ carts twin_stores !! "ann" = Some (mkCart "ann" [cable; pen; pen_again] 12.3%float)
  ∧ ∃ s' cart',
      remove_product_from_cart "ann" "p-7" twin_stores = (s', Return cart')
      ∧ carts s' !! "ann" = Some cart'
      ∧ items cart' = [cable] ++ [pen_again]
      ∧ total cart' = (12.3 - 3)%float.
Proof.
  split.
  { apply (proj1 (duplicate_ids_first_removed
                    (run_cart [AddProduct "ann" cable; AddProduct "ann" pen] empty_stores)
                    "ann") pen_again 9%float).
    vm_compute; reflexivity. }
  split; [vm_compute; reflexivity|].
  apply (proj2 (duplicate_ids_first_removed twin_stores "ann") "p-7"
           (mkCart "ann" [cable; pen; pen_again] 12.3%float)
           [cable] pen [pen_again] 3%float).
  - vm_compute; reflexivity.
  - reflexivity.
  - reflexivity.
  - repeat constructor. simpl. discriminate.
  - vm_compute; reflexivity.
Defined.

(** ** Suffixes *)

Lemma substring_whole s : String.substring 0 (String.length s) s = s.
Proof. induction s as [|a s IH]; simpl; [done | by rewrite IH]. Qed.

Lemma substring_after pre s m :
  String.substring (String.length pre) m (String.append pre s)
  = String.substring 0 m s.
Proof. induction pre as [|a pre IH]; simpl; done. Qed.

Lemma string_length_append s1 s2 :
  String.length (String.append s1 s2) = (String.length s1 + String.length s2)%nat.
Proof. induction s1 as [|a s1 IH]; simpl; [done | by rewrite IH]. Qed.

Lemma string_split_at k : ∀ s,
  (k ≤ String.length s)%nat →
  s = String.append (String.substring 0 k s)
        (String.substring k (String.length s - k) s).
Proof.
  induction k as [|k IH]; intros s Hk.
  - rewrite Nat.sub_0_r, substring_whole. by destruct s.
  - destruct s as [|a s]; simpl in *; [lia|].
    change (String a s
            = String a (String.append (String.substring 0 k s)
                          (String.substring k (String.length s - k) s))).
    f_equal. apply IH. lia.
Qed.

Lemma endswith_iff s suffix :
  endswith s suffix = true ↔ ∃ pre, s = String.append pre suffix.
Proof.
  unfold endswith. split.
  - destruct (Nat.leb_spec (String.length suffix) (String.length s)) as [Hle|]; [|done].
    intros Heq%String.eqb_eq.
    exists (String.substring 0 (String.length s - String.length suffix) s).
    pose proof (string_split_at (String.length s - String.length suffix) s) as Hs.
    replace (String.length s - (String.length s - String.length suffix))%nat
      with (String.length suffix) in Hs by lia.
    rewrite Heq in Hs. apply Hs. lia.
  - intros [pre ->]. rewrite string_length_append.
    destruct (Nat.leb_spec (String.length suffix)
                (String.length pre + String.length suffix)) as [_|]; [|lia].
    replace (String.length pre + String.length suffix - String.length suffix)%nat
      with (String.length pre) by lia.
    rewrite substring_after, substring_whole. apply String.eqb_refl.
Qed.

(** ** calculate_delivery_cost and check_delivery_availability *)

(** C6: the response of calculate_delivery_cost depends on the request's
    [address.country] alone, compared case-insensitively: the cost is 5.0
    when the country equals the Ukrainian spelling of Ukraine up to case,
    and 15.0 for every other country string, the empty string included.
    The two facts used about [str.lower] are that it maps the empty string
    to itself and the capitalised Ukrainian spelling to the lowercase
    constant of the code. *)
Theorem calculate_delivery_cost_spec (str_lower : string → string)
    (request : DeliveryCostRequest) :
  str_lower "" = "" →
  str_lower "Україна" = "україна" →
  (same_ignoring_case str_lower (country (address request)) "Україна" →
     calculate_delivery_cost str_lower request = mkDeliveryCostResponse 5%float)
  ∧ (¬ same_ignoring_case str_lower (country (address request)) "Україна" →
     calculate_delivery_cost str_lower request = mkDeliveryCostResponse 15%float)
  ∧ (country (address request) = "" →
     calculate_delivery_cost str_lower request = mkDeliveryCostResponse 15%float)
  ∧ (∀ request',
       country (address request') = country (address request) →
       calculate_delivery_cost str_lower request'
       = calculate_delivery_cost str_lower request).
Proof.
  intros Hnil Hukr. unfold calculate_delivery_cost, same_ignoring_case.
  rewrite Hukr. repeat split.
  - intros ->. done.
  - intros Hne. by destruct (String.eqb_spec (str_lower (country (address request)))
                               "україна").
  - intros ->. by rewrite Hnil.
  - intros request' ->. done.
Qed.

(** C7: check_delivery_availability answers [available = false] if and
    only if the region equals the Ukrainian word for East up to case and the
    product id ends with the character "1"; every other combination gets
    [available = true]; and each answer carries its fixed message.  The fact
    used about [str.lower] is that it maps the capitalised word to the
    lowercase constant of the code. *)
Theorem check_delivery_availability_spec (str_lower : string → string)
    (request : AvailabilityCheckRequest) :
  str_lower "Схід" = "схід" →
  (available (check_delivery_availability str_lower request) = false
   ↔ same_ignoring_case str_lower (region request) "Схід"
     ∧ ∃ pre, request_product_id request = String.append pre "1")
  ∧ (available (check_delivery_availability str_lower request) = true
     ↔ ¬ (same_ignoring_case str_lower (region request) "Схід"
          ∧ ∃ pre, request_product_id request = String.append pre "1"))
  ∧ check_delivery_availability str_lower request
    = (if available (check_delivery_availability str_lower request)
       then mkAvailabilityCheckResponse true "Товар доступний для доставки"
       else mkAvailabilityCheckResponse false
              "Товар недоступний для доставки в даний регіон").
Proof.
  intros Hest. unfold check_delivery_availability, same_ignoring_case.
  rewrite Hest, <- endswith_iff.
  destruct (String.eqb_spec (str_lower (region request)) "схід") as [Hr|Hr];
    destruct (endswith (request_product_id request) "1"); simpl;
    repeat split; intuition congruence.
Qed.

Lemma calculate_delivery_cost_spec_witness :
  lower_ascii_cyrillic "" = ""
  ∧ lower_ascii_cyrillic "Україна" = "україна"
  ∧ same_ignoring_case lower_ascii_cyrillic "УкраЇНА" "Україна"
  ∧ calculate_delivery_cost lower_ascii_cyrillic
      (mkDeliveryCostRequest (mkDeliveryAddress "a-2" "s" "c" "p" "УкраЇНА"))
    = mkDeliveryCostResponse 5%float
  ∧ calculate_delivery_cost lower_ascii_cyrillic
      (mkDeliveryCostRequest (mkDeliveryAddress "a-3" "s" "c" "p" ""))
    = mkDeliveryCostResponse 15%float
  ∧ ¬ same_ignoring_case lower_ascii_cyrillic "Ukraine" "Україна"
  ∧ calculate_delivery_cost lower_ascii_cyrillic
      (mkDeliveryCostRequest (mkDeliveryAddress "a-4" "s" "c" "p" "Ukraine"))
    = mkDeliveryCostResponse 15%float.
Proof.
  assert (lower_ascii_cyrillic "Україна" = "україна") as Hukr
    by (vm_compute; reflexivity).
  assert (same_ignoring_case lower_ascii_cyrillic "УкраЇНА" "Україна") as Hsame
    by (vm_compute; reflexivity).
  assert (¬ same_ignoring_case lower_ascii_cyrillic "Ukraine" "Україна") as Hdiff
    by (vm_compute; discriminate).
  split; [reflexivity|]. split; [exact Hukr|]. split; [exact Hsame|].
  split.
  { apply (proj1 (calculate_delivery_cost_spec lower_ascii_cyrillic
                    (mkDeliveryCostRequest (mkDeliveryAddress "a-2" "s" "c" "p" "УкраЇНА"))
                    eq_refl Hukr)).
    exact Hsame. }
  split.
  { apply (proj1 (proj2 (proj2 (calculate_delivery_cost_spec lower_ascii_cyrillic
                    (mkDeliveryCostRequest (mkDeliveryAddress "a-3" "s" "c" "p" ""))
                    eq_refl Hukr)))).
    reflexivity. }
  split; [exact Hdiff|].
  apply (proj1 (proj2 (calculate_delivery_cost_spec lower_ascii_cyrillic
                  (mkDeliveryCostRequest (mkDeliveryAddress "a-4" "s" "c" "p" "Ukraine"))
                  eq_refl Hukr))).
  exact Hdiff.
Defined.

Lemma check_delivery_availability_spec_witness :
  lower_ascii_cyrillic "Схід" = "схід"
  ∧ available (check_delivery_availability lower_ascii_cyrillic
               (mkAvailabilityCheckRequest "Схід" "abc1231")) = false
  ∧ available (check_delivery_availability lower_ascii_cyrillic
                 (mkAvailabilityCheckRequest "СХІД" "abc1232")) = true
  ∧ available (check_delivery_availability lower_ascii_cyrillic
                 (mkAvailabilityCheckRequest "Захід" "abc1231")) = true.
Proof.
  assert (lower_ascii_cyrillic "Схід" = "схід") as Hest by (vm_compute; reflexivity).
  split; [exact Hest|].
  split.
  { apply (proj1 (check_delivery_availability_spec lower_ascii_cyrillic
                    (mkAvailabilityCheckRequest "Схід" "abc1231") Hest)).
    split; [vm_compute; reflexivity | by exists "abc123"]. }
  split.
  { apply (proj1 (proj2 (check_delivery_availability_spec lower_ascii_cyrillic
                           (mkAvailabilityCheckRequest "СХІД" "abc1232") Hest))).
    intros [_ Hend%endswith_iff]. vm_compute in Hend. discriminate. }
  apply (proj1 (proj2 (check_delivery_availability_spec lower_ascii_cyrillic
                         (mkAvailabilityCheckRequest "Захід" "abc1231") Hest))).
  intros [Hr _]. vm_compute in Hr. discriminate.
Defined.

(** ** The Address Store *)

Lemma handle_cart_addresses r s :
  user_addresses (handle_cart r s).1 = user_addresses s.
Proof.
  destruct r as [uid|uid product|uid pid|uid addr uuid]; simpl; rewrite respond_fst.
  - unfold get_cart. by destruct (carts s !! uid).
  - unfold add_product_to_cart. by destruct (line_total product).
  - unfold remove_product_from_cart.
    destruct (carts s !! uid) as [cart|]; [|done].
    destruct (find_product pid (items cart)) as [p|]; [|done].
    by destruct (line_total p).
  - unfold checkout. destruct (carts s !! uid) as [cart|]; [|done].
    destruct (length (items cart) =? 0)%nat; [done|]. by destruct (py_sum _).
Qed.

Lemma add_delivery_address_other uid uid' addr s :
  uid' ≠ uid →
  addresses_of uid (add_delivery_address uid' addr s).1 = addresses_of uid s.
Proof. intros Hne. unfold addresses_of. simpl. by rewrite lookup_insert_ne. Qed.

Lemma add_delivery_address_same uid addr s :
  addresses_of uid (add_delivery_address uid addr s).1 = addresses_of uid s ++ [addr].
Proof. unfold addresses_of. simpl. by rewrite lookup_insert_eq. Qed.

Lemma handle_addresses str_lower r s uid :
  addresses_of uid (handle str_lower r s).1 = addresses_of uid s ++ added_for uid [r].
Proof.
  destruct r as [r|req|oid|req|uid'|uid' addr]; simpl;
    rewrite ?respond_fst, ?app_nil_r; try done.
  - unfold addresses_of. by rewrite handle_cart_addresses.
  - unfold get_delivery_info. by destruct (deliveries s !! oid).
  - case_decide as Hu.
    + subst uid'. apply add_delivery_address_same.
    + rewrite app_nil_r. by apply add_delivery_address_other.
Qed.

Lemma added_for_cons uid r rs :
  added_for uid (r :: rs) = added_for uid [r] ++ added_for uid rs.
Proof.
  destruct r; simpl; try done. by case_decide.
Qed.

Lemma run_addresses str_lower rs : ∀ s uid,
  addresses_of uid (run str_lower rs s) = addresses_of uid s ++ added_for uid rs.
Proof.
  induction rs as [|r rs IH]; intros s uid.
  - simpl. by rewrite app_nil_r.
  - change (run str_lower (r :: rs) s) with (run str_lower rs (handle str_lower r s).1).
    by rewrite IH, (handle_addresses str_lower), (added_for_cons uid r rs), app_assoc.
Qed.

Lemma added_for_own uid addrs :
  added_for uid (AddDeliveryAddress uid <$> addrs) = addrs.
Proof.
  induction addrs as [|a addrs IH]; [done|].
  rewrite fmap_cons. cbn [added_for].
  case_decide; [by rewrite IH | done].
Qed.

(** C8: add_delivery_address appends the address to the user's list,
    taking the empty list when the user has none, stores the list and
    returns all of it; after any sequence of requests of any of the nine
    kinds a user's list is the list before followed by the addresses added
    for that user, in call order, so nothing is removed or reordered; and N
    calls for a user who had no list give the N addresses in call order. *)
Theorem address_store_append_only (str_lower : string → string) :
  (∀ s uid addr,
     ∃ s', add_delivery_address uid addr s
           = (s', Return (addresses_of uid s ++ [addr]))
           ∧ user_addresses s' !! uid = Some (addresses_of uid s ++ [addr])
           ∧ carts s' = carts s ∧ deliveries s' = deliveries s)
  ∧ (∀ rs s uid,
       addresses_of uid (run str_lower rs s)
       = addresses_of uid s ++ added_for uid rs)
  ∧ (∀ addrs s uid,
       user_addresses s !! uid = None →
       addresses_of uid (run str_lower (AddDeliveryAddress uid <$> addrs) s) = addrs
       ∧ length (addresses_of uid (run str_lower (AddDeliveryAddress uid <$> addrs) s))
         = length addrs)
  ∧ (∀ s uid, get_user_addresses uid s = (s, Return (addresses_of uid s))).
Proof.
  split; [|split; [|split]].
  - intros s uid addr. eexists. split; [reflexivity|]. simpl.
    by rewrite lookup_insert_eq.
  - intros rs s uid. apply run_addresses.
  - intros addrs s uid Hnone.
    rewrite run_addresses, added_for_own. unfold addresses_of. by rewrite Hnone.
  - done.
Qed.

Lemma address_store_append_only_witness :
  user_addresses two_item_stores !! "ann" = None
  ∧ addresses_of "ann"
      (run lower_ascii_cyrillic
         (AddDeliveryAddress "ann" <$> [kyiv; lviv; odesa]) two_item_stores)
    = [kyiv; lviv; odesa]
  ∧ addresses_of "ann"
      (run lower_ascii_cyrillic
         [AddDeliveryAddress "ann" odesa; CartRequest (Checkout "ann" kyiv "o-1");
          AddDeliveryAddress "bob" lviv; GetUserAddresses "ann";
          AddDeliveryAddress "ann" kyiv] two_item_stores)
    = [odesa; kyiv].
Proof.
  split; [vm_compute; reflexivity|].
  split.
  { apply (proj1 (proj2 (proj2 (address_store_append_only lower_ascii_cyrillic)))
             [kyiv; lviv; odesa] two_item_stores "ann").
    vm_compute; reflexivity. }
  apply (proj1 (proj2 (address_store_append_only lower_ascii_cyrillic))
           [AddDeliveryAddress "ann" odesa; CartRequest (Checkout "ann" kyiv "o-1");
            AddDeliveryAddress "bob" lviv; GetUserAddresses "ann";
            AddDeliveryAddress "ann" kyiv] two_item_stores "ann").
Defined.

(** * Further properties of the handlers *)

Lemma add_only_fresh_cart_witness :
  carts empty_stores !! "u" = None
  ∧ cart_sum [tenth; fifth; two_fifths] = Some 0.7000000000000001%float
  ∧ carts (run_cart (GetCart "u" :: (AddProduct "u" <$> [tenth; fifth; two_fifths]))
             empty_stores) !! "u"
    = Some (mkCart "u" [tenth; fifth; two_fifths] 0.7000000000000001%float).
Proof.
  split; [reflexivity|]. split; [vm_compute; reflexivity|].
  apply (add_only_fresh_cart "u" [tenth; fifth; two_fifths] empty_stores
           0.7000000000000001%float).
  - reflexivity.
  - vm_compute; reflexivity.
Defined.

(** ** get_cart *)

(** X2: get_cart never raises.  It answers with the stored cart, or with a
    new empty cart that it stores when the user has none; the cart it
    answers with is the one in the Cart Store afterwards; a user who had a
    cart leaves all stores as they were; a second get_cart answers the same
    and changes nothing; and no other user's cart, address list or delivery
    is touched. *)
Theorem get_cart_creates_once s uid :
  ∃ c,
    get_cart uid s = ((get_cart uid s).1, Return c)
    ∧ c = default (new_cart uid) (carts s !! uid)
    ∧ carts (get_cart uid s).1 !! uid = Some c
    ∧ (is_Some (carts s !! uid) → (get_cart uid s).1 = s)
    ∧ get_cart uid (get_cart uid s).1 = ((get_cart uid s).1, Return c)
    ∧ (∀ uid', uid' ≠ uid → carts (get_cart uid s).1 !! uid' = carts s !! uid')
    ∧ user_addresses (get_cart uid s).1 = user_addresses s
    ∧ deliveries (get_cart uid s).1 = deliveries s.
Proof.
  exists (default (new_cart uid) (carts s !! uid)). unfold get_cart.
  destruct (carts s !! uid) as [c|] eqn:Hc; simpl.
  - rewrite Hc. repeat split; done.
  - rewrite lookup_insert_eq. repeat split; try done.
    intros uid' Hne. by rewrite lookup_insert_ne.
Qed.

(** ** Which request changes which store *)

Lemma handle_cart_carts_other r s uid :
  cart_request_user r ≠ uid →
  carts (handle_cart r s).1 !! uid = carts s !! uid.
Proof.
  destruct r as [u|u product|u pid|u addr uuid]; simpl; intros Hne;
    rewrite respond_fst.
  - unfold get_cart. destruct (carts s !! u); simpl; [done|].
    by rewrite lookup_insert_ne.
  - unfold add_product_to_cart. destruct (line_total product); simpl;
      by rewrite !lookup_insert_ne.
  - unfold remove_product_from_cart.
    destruct (carts s !! u) as [cart|]; [|done].
    destruct (find_product pid (items cart)) as [p|]; [|done].
    destruct (line_total p); simpl; by rewrite !lookup_insert_ne.
  - unfold checkout. destruct (carts s !! u) as [cart|]; [|done].
    destruct (length (items cart) =? 0)%nat; [done|].
    destruct (py_sum _); simpl; [by rewrite lookup_insert_ne | done].
Qed.

Lemma handle_cart_deliveries_other r s oid :
  (∀ u addr, r ≠ Checkout u addr oid) →
  deliveries (handle_cart r s).1 !! oid = deliveries s !! oid.
Proof.
  destruct r as [u|u product|u pid|u addr uuid]; simpl; intros Hne;
    rewrite respond_fst.
  - unfold get_cart. by destruct (carts s !! u).
  - unfold add_product_to_cart. by destruct (line_total product).
  - unfold remove_product_from_cart.
    destruct (carts s !! u) as [cart|]; [|done].
    destruct (find_product pid (items cart)) as [p|]; [|done].
    by destruct (line_total p).
  - unfold checkout. destruct (carts s !! u) as [cart|]; [|done].
    destruct (length (items cart) =? 0)%nat; [done|].
    destruct (py_sum _); simpl; [|done].
    rewrite lookup_insert_ne; [done|]. intros ->. by apply (Hne u addr).
Qed.

Lemma handle_carts_other str_lower r s uid :
  (∀ cr, r = CartRequest cr → cart_request_user cr ≠ uid) →
  carts (handle str_lower r s).1 !! uid = carts s !! uid.
Proof.
  destruct r as [cr|req|oid|req|u|u addr]; simpl; intros Hne;
    rewrite ?respond_fst; try done.
  - apply handle_cart_carts_other. by apply Hne.
  - unfold get_delivery_info. by destruct (deliveries s !! oid).
Qed.

Lemma handle_deliveries_other str_lower r s oid :
  (∀ u addr, r ≠ CartRequest (Checkout u addr oid)) →
  deliveries (handle str_lower r s).1 !! oid = deliveries s !! oid.
Proof.
  destruct r as [cr|req|o|req|u|u addr]; simpl; intros Hne;
    rewrite ?respond_fst; try done.
  - apply handle_cart_deliveries_other. intros u addr ->. by apply (Hne u addr).
  - unfold get_delivery_info. by destruct (deliveries s !! o).
Qed.

(** X3: a request changes no cart but the one of the user it is a cart
    request for; it changes no delivery record unless it is a checkout, and
    then only the record under the order id generated for it; and it changes
    no address list unless it is an add_delivery_address, and then only the
    list of its user. *)
Theorem request_frame (str_lower : string → string) r s :
  (∀ uid, (∀ cr, r = CartRequest cr → cart_request_user cr ≠ uid) →
     carts (handle str_lower r s).1 !! uid = carts s !! uid)
  ∧ (∀ oid, (∀ u addr, r ≠ CartRequest (Checkout u addr oid)) →
       deliveries (handle str_lower r s).1 !! oid = deliveries s !! oid)
  ∧ (∀ uid, (∀ addr, r ≠ AddDeliveryAddress uid addr) →
       user_addresses (handle str_lower r s).1 !! uid = user_addresses s !! uid).
Proof.
  split; [|split].
  - intros uid. apply handle_carts_other.
  - intros oid. apply handle_deliveries_other.
  - intros uid Hne.
    destruct r as [cr|req|o|req|u|u addr]; simpl; rewrite ?respond_fst; try done.
    + by rewrite handle_cart_addresses.
    + unfold get_delivery_info. by destruct (deliveries s !! o).
    + simpl. rewrite lookup_insert_ne; [done|]. intros ->. by apply (Hne addr).
Qed.

Lemma request_frame_witness :
  carts (handle lower_ascii_cyrillic (CartRequest (Checkout "ann" kyiv "o-1"))
           two_item_stores).1 !! "bob" = carts two_item_stores !! "bob"
  ∧ deliveries (handle lower_ascii_cyrillic (CartRequest (Checkout "ann" kyiv "o-1"))
                  two_item_stores).1 !! "o-2" = deliveries two_item_stores !! "o-2"
  ∧ deliveries (handle lower_ascii_cyrillic (CartRequest (RemoveProduct "ann" "p-1"))
                  two_item_stores).1 !! "o-1" = deliveries two_item_stores !! "o-1"
  ∧ user_addresses (handle lower_ascii_cyrillic (AddDeliveryAddress "ann" kyiv)
                      two_item_stores).1 !! "bob" = user_addresses two_item_stores !! "bob".
Proof.
  split.
  { apply (proj1 (request_frame lower_ascii_cyrillic
                    (CartRequest (Checkout "ann" kyiv "o-1")) two_item_stores) "bob").
    intros cr [= <-]. simpl. discriminate. }
  split.
  { apply (proj1 (proj2 (request_frame lower_ascii_cyrillic
                    (CartRequest (Checkout "ann" kyiv "o-1")) two_item_stores)) "o-2").
    intros u addr. discriminate. }
  split.
  { apply (proj1 (proj2 (request_frame lower_ascii_cyrillic
                    (CartRequest (RemoveProduct "ann" "p-1")) two_item_stores)) "o-1").
    intros u addr. discriminate. }
  apply (proj2 (proj2 (request_frame lower_ascii_cyrillic
                  (AddDeliveryAddress "ann" kyiv) two_item_stores)) "bob").
  intros addr. discriminate.
Defined.

(** ** What every run keeps *)

Lemma run_cons str_lower r rs s :
  run str_lower (r :: rs) s = run str_lower rs (handle str_lower r s).1.
Proof. reflexivity. Qed.

Lemma run_keeps (P : Stores → Prop) str_lower :
  (∀ r s, P s → P (handle str_lower r s).1) →
  ∀ rs s, P s → P (run str_lower rs s).
Proof.
  intros Hstep. induction rs as [|r rs IH]; intros s Hs; [done|].
  rewrite run_cons. by apply IH, Hstep.
Qed.

Lemma handle_cart_keyed r s :
  carts_keyed s → carts_keyed (handle_cart r s).1.
Proof.
  intros Hs uid c. destruct (decide (cart_request_user r = uid)) as [<-|Hne];
    [|rewrite handle_cart_carts_other by done; apply Hs].
  assert (user_id (default (new_cart (cart_request_user r))
                     (carts s !! cart_request_user r)) = cart_request_user r) as Hdef.
  { destruct (carts s !! cart_request_user r) eqn:Hc; simpl; [by apply Hs | done]. }
  destruct r as [u|u product|u pid|u addr uuid]; simpl in *; rewrite respond_fst.
  - unfold get_cart. destruct (carts s !! u) eqn:Hc; simpl; [apply Hs|].
    rewrite lookup_insert_eq. by intros [= <-].
  - unfold add_product_to_cart. destruct (line_total product); simpl;
      rewrite lookup_insert_eq; by intros [= <-].
  - unfold remove_product_from_cart.
    destruct (carts s !! u) as [cart|] eqn:Hc; [|apply Hs].
    destruct (find_product pid (items cart)) as [p|]; [|apply Hs].
    destruct (line_total p); simpl; rewrite lookup_insert_eq; by intros [= <-].
  - unfold checkout. destruct (carts s !! u) as [cart|] eqn:Hc; [|apply Hs].
    destruct (length (items cart) =? 0)%nat; [apply Hs|].
    destruct (py_sum _); simpl; [|apply Hs].
    rewrite lookup_insert_eq. by intros [= <-].
Qed.

(** X4: starting from empty stores, after every sequence of requests every
    cart in the Cart Store is stored under its own [user_id]. *)
Theorem carts_stay_keyed (str_lower : string → string) (rs : list request) :
  carts_keyed (run str_lower rs empty_stores).
Proof.
  apply run_keeps; [|intros uid c; simpl; by rewrite lookup_empty].
  intros r s Hs uid c.
  destruct r as [cr|req|o|req|u|u addr];
    [simpl; rewrite respond_fst; by apply handle_cart_keyed|..];
    (rewrite handle_carts_other; [apply Hs | intros cr; discriminate]).
Qed.

(** X5: starting from empty stores, after every sequence of requests every
    record in the Delivery Store has the [order_id] it is stored under and
    the status "Processing": no handler sets another status, and
    get_delivery_info answers with a record of the id it was asked for. *)
Theorem deliveries_stay_processing (str_lower : string → string) (rs : list request) :
  deliveries_keyed (run str_lower rs empty_stores)
  ∧ (∀ oid d,
       (get_delivery_info oid (run str_lower rs empty_stores)).2 = Return d →
       order_id d = oid ∧ status d = "Processing").
Proof.
  assert (deliveries_keyed (run str_lower rs empty_stores)) as Hkeyed.
  { apply run_keeps; [|intros oid d; simpl; by rewrite lookup_empty].
    intros r s Hs oid d.
    assert (∀ u addr uuid,
              r = CartRequest (Checkout u addr uuid) → uuid = oid →
              deliveries (handle str_lower r s).1 !! oid = Some d →
              order_id d = oid ∧ status d = "Processing") as Hcheckout.
    { intros u addr uuid -> ->. unfold handle, handle_cart.
      rewrite !respond_fst. unfold checkout.
      destruct (carts s !! u) as [cart|]; [|apply Hs].
      destruct (length (items cart) =? 0)%nat; [apply Hs|].
      destruct (py_sum _); simpl; [|apply Hs].
      rewrite lookup_insert_eq. by intros [= <-]. }
    destruct r as [[u|u product|u pid|u addr uuid]|req|o|req|u|u addr];
      try (rewrite handle_deliveries_other; [apply Hs | intros; discriminate]).
    destruct (decide (uuid = oid)) as [Heq|Hne]; [by eapply Hcheckout|].
    rewrite handle_deliveries_other; [apply Hs|]. intros u' addr' [= _ _ ?]. done. }
  split; [done|]. intros oid d. unfold get_delivery_info.
  destruct (deliveries _ !! oid) as [d'|] eqn:Hd; simpl; [|done].
  intros [= <-]. by apply Hkeyed.
Qed.

Lemma deliveries_stay_processing_witness :
  (get_delivery_info "o-2" (run lower_ascii_cyrillic order_example empty_stores)).2
  = Return (mkDeliveryInfo "o-2" "bob" odesa 5.3%float "Processing")
  ∧ order_id (mkDeliveryInfo "o-2" "bob" odesa 5.3%float "Processing") = "o-2"
  ∧ status (mkDeliveryInfo "o-2" "bob" odesa 5.3%float "Processing") = "Processing".
Proof.
  assert ((get_delivery_info "o-2"
             (run lower_ascii_cyrillic order_example empty_stores)).2
          = Return (mkDeliveryInfo "o-2" "bob" odesa 5.3%float "Processing")) as Hget
    by (vm_compute; reflexivity).
  split; [exact Hget|].
  exact (proj2 (deliveries_stay_processing lower_ascii_cyrillic order_example)
           "o-2" _ Hget).
Defined.

(** X6: starting from empty stores, after every sequence of requests no
    user is mapped to an empty address list: an entry of the Address Store
    exists only once an address was added, and get_user_addresses, which
    answers [[]] for an unknown user, creates none. *)
Theorem addresses_stay_nonempty (str_lower : string → string) (rs : list request) :
  addresses_nonempty (run str_lower rs empty_stores).
Proof.
  apply run_keeps; [|intros uid l; simpl; by rewrite lookup_empty].
  intros r s Hs uid l.
  destruct r as [cr|req|o|req|u|u addr]; simpl; rewrite ?respond_fst; try apply Hs.
  - rewrite handle_cart_addresses. apply Hs.
  - unfold get_delivery_info. destruct (deliveries s !! o); apply Hs.
  - simpl. destruct (decide (u = uid)) as [->|Hne].
    + rewrite lookup_insert_eq. intros [= <-]. by destruct (default _ _).
    + rewrite lookup_insert_ne by done. apply Hs.
Qed.

(** ** Delivery records stay *)

Lemma handle_deliveries_is_Some str_lower r s oid :
  is_Some (deliveries s !! oid) →
  is_Some (deliveries (handle str_lower r s).1 !! oid).
Proof.
  intros Hsome.
  destruct r as [[u|u product|u pid|u addr uuid]|req|o|req|u|u addr];
    try (rewrite handle_deliveries_other; [done | intros; discriminate]).
  destruct (decide (uuid = oid)) as [->|Hne];
    [|rewrite handle_deliveries_other; [done | by intros u' addr' [= _ _ ?]]].
  unfold handle, handle_cart. rewrite !respond_fst. unfold checkout.
  destruct (carts s !! u) as [cart|]; [|done].
  destruct (length (items cart) =? 0)%nat; [done|].
  destruct (py_sum _); simpl; [|done]. rewrite lookup_insert_eq. by eexists.
Qed.

Lemma run_deliveries_other str_lower rs : ∀ s oid,
  generates oid rs = false →
  deliveries (run str_lower rs s) !! oid = deliveries s !! oid.
Proof.
  induction rs as [|r rs IH]; intros s oid Hgen; [done|].
  rewrite run_cons.
  destruct r as [[u|u product|u pid|u addr uuid]|req|o|req|u|u addr];
    simpl in Hgen; try case_decide; try done;
    (rewrite IH by done; apply handle_deliveries_other; intros; congruence).
Qed.

(** X7: no request deletes a delivery record: an order id that
    get_delivery_info finds is found after every further sequence of
    requests; the record itself is the same as long as no later checkout is
    given the same id by the generator; and from empty stores an id that no
    checkout of the sequence was given is answered with NotFound. *)
Theorem delivery_records_persist (str_lower : string → string) rs s oid :
  (is_Some (deliveries s !! oid) →
   is_Some (deliveries (run str_lower rs s) !! oid))
  ∧ (generates oid rs = false →
     (get_delivery_info oid (run str_lower rs s)).2 = (get_delivery_info oid s).2)
  ∧ (generates oid rs = false →
     (get_delivery_info oid (run str_lower rs empty_stores)).2
     = Raise (HTTPException 404 "Інформацію про доставку не знайдено")).
Proof.
  split; [|split].
  - revert s. induction rs as [|r rs IH]; intros s Hsome; [done|].
    rewrite run_cons. by apply IH, handle_deliveries_is_Some.
  - intros Hgen. unfold get_delivery_info.
    rewrite (run_deliveries_other str_lower rs s oid Hgen).
    by destruct (deliveries s !! oid).
  - intros Hgen. unfold get_delivery_info.
    rewrite (run_deliveries_other str_lower rs empty_stores oid Hgen). simpl.
    by rewrite lookup_empty.
Qed.

Lemma delivery_records_persist_witness :
  is_Some (deliveries (run lower_ascii_cyrillic (take 2 order_example) empty_stores)
             !! "o-1")
  ∧ is_Some (deliveries
               (run lower_ascii_cyrillic (drop 2 order_example)
                  (run lower_ascii_cyrillic (take 2 order_example) empty_stores))
               !! "o-1")
  ∧ generates "o-1" (drop 2 order_example) = false
  ∧ (get_delivery_info "o-1"
       (run lower_ascii_cyrillic (drop 2 order_example)
          (run lower_ascii_cyrillic (take 2 order_example) empty_stores))).2
    = (get_delivery_info "o-1"
         (run lower_ascii_cyrillic (take 2 order_example) empty_stores)).2
  ∧ generates "o-9" order_example = false
  ∧ (get_delivery_info "o-9" (run lower_ascii_cyrillic order_example empty_stores)).2
    = Raise (HTTPException 404 "Інформацію про доставку не знайдено").
Proof.
  assert (is_Some (deliveries
                     (run lower_ascii_cyrillic (take 2 order_example) empty_stores)
                     !! "o-1")) as Hsome by (vm_compute; by eexists).
  split; [exact Hsome|].
  split.
  { exact (proj1 (delivery_records_persist lower_ascii_cyrillic (drop 2 order_example)
                    (run lower_ascii_cyrillic (take 2 order_example) empty_stores)
                    "o-1") Hsome). }
  split; [vm_compute; reflexivity|].
  split.
  { apply (proj1 (proj2 (delivery_records_persist lower_ascii_cyrillic
                           (drop 2 order_example)
                           (run lower_ascii_cyrillic (take 2 order_example) empty_stores)
                           "o-1"))).
    vm_compute; reflexivity. }
  split; [vm_compute; reflexivity|].
  apply (proj2 (proj2 (delivery_records_persist lower_ascii_cyrillic order_example
                         empty_stores "o-9"))).
  vm_compute; reflexivity.
Defined.

(** X8: the DeliveryInfo a checkout returned is what get_delivery_info
    answers for its order id, right away and after any further requests
    among which no checkout is given the same id. *)
Theorem order_stays_retrievable (str_lower : string → string) s uid addr uuid d rs :
  (checkout uid addr uuid s).2 = Return d →
  generates uuid rs = false →
  order_id d = uuid
  ∧ get_delivery_info uuid (checkout uid addr uuid s).1
    = ((checkout uid addr uuid s).1, Return d)
  ∧ get_delivery_info uuid (run str_lower rs (checkout uid addr uuid s).1)
    = (run str_lower rs (checkout uid addr uuid s).1, Return d).
Proof.
  intros Hret Hgen.
  assert (order_id d = uuid ∧ deliveries (checkout uid addr uuid s).1 !! uuid = Some d)
    as [Hid Hd].
  { revert Hret. unfold checkout.
    destruct (carts s !! uid) as [cart|]; [|done].
    destruct (length (items cart) =? 0)%nat; [done|].
    destruct (py_sum _); simpl; [|done].
    intros [= <-]. by rewrite lookup_insert_eq. }
  split; [done|]. unfold get_delivery_info.
  rewrite (run_deliveries_other str_lower rs _ uuid Hgen), Hd. done.
Qed.

Lemma order_stays_retrievable_witness :
  (checkout "ann" kyiv "o-1" ten_twice_stores).2
  = Return (mkDeliveryInfo "o-1" "ann" kyiv 25%float "Processing")
  ∧ generates "o-1" (drop 2 order_example) = false
  ∧ get_delivery_info "o-1"
      (run lower_ascii_cyrillic (drop 2 order_example)
         (checkout "ann" kyiv "o-1" ten_twice_stores).1)
    = (run lower_ascii_cyrillic (drop 2 order_example)
         (checkout "ann" kyiv "o-1" ten_twice_stores).1,
       Return (mkDeliveryInfo "o-1" "ann" kyiv 25%float "Processing")).
Proof.
  assert ((checkout "ann" kyiv "o-1" ten_twice_stores).2
          = Return (mkDeliveryInfo "o-1" "ann" kyiv 25%float "Processing")) as Hret
    by (vm_compute; reflexivity).
  assert (generates "o-1" (drop 2 order_example) = false) as Hgen
    by (vm_compute; reflexivity).
  split; [exact Hret|]. split; [exact Hgen|].
  exact (proj2 (proj2 (order_stays_retrievable lower_ascii_cyrillic ten_twice_stores
                         "ann" kyiv "o-1" _ (drop 2 order_example) Hret Hgen))).
Defined.

(** ** add_product_to_cart at its edge *)

Lemma line_total_None p :
  line_total p = None ↔ PyLong_AsDouble (quantity p) = None.
Proof.
  unfold line_total, float_mul_int.
  destruct (PyLong_AsDouble (quantity p)); simpl; split; done.
Qed.

(** X9: add_product never raises an HTTP error and it checks neither the
    sign of the price nor of the quantity; it raises [OverflowError] exactly
    when the quantity does not convert to float, and then the product has
    been appended to the stored cart all the same, with [total] left as it
    was; otherwise it returns the stored cart with the product appended and
    the product's [price * quantity] added to [total]. *)
Theorem add_product_outcomes s uid p :
  (∀ code detail,
     (add_product_to_cart uid p s).2 ≠ Raise (HTTPException code detail))
  ∧ ((add_product_to_cart uid p s).2 = Raise OverflowError
     ↔ PyLong_AsDouble (quantity p) = None)
  ∧ (PyLong_AsDouble (quantity p) = None →
     carts (add_product_to_cart uid p s).1 !! uid
     = Some (mkCart (user_id (default (new_cart uid) (carts s !! uid)))
               (items (default (new_cart uid) (carts s !! uid)) ++ [p])
               (total (default (new_cart uid) (carts s !! uid)))))
  ∧ (∀ f, PyLong_AsDouble (quantity p) = Some f →
       add_product_to_cart uid p s
       = ((add_product_to_cart uid p s).1,
          Return (mkCart (user_id (default (new_cart uid) (carts s !! uid)))
                    (items (default (new_cart uid) (carts s !! uid)) ++ [p])
                    (total (default (new_cart uid) (carts s !! uid)) + price p * f)%float))
       ∧ carts (add_product_to_cart uid p s).1 !! uid
         = Some (mkCart (user_id (default (new_cart uid) (carts s !! uid)))
                   (items (default (new_cart uid) (carts s !! uid)) ++ [p])
                   (total (default (new_cart uid) (carts s !! uid)) + price p * f)%float)).
Proof.
  rewrite <- line_total_None. unfold add_product_to_cart, line_total, float_mul_int.
  destruct (PyLong_AsDouble (quantity p)) as [f|]; simpl; repeat split; try done;
    simplify_eq; by rewrite ?lookup_insert_eq.
Qed.

Lemma add_product_outcomes_witness :
  PyLong_AsDouble (quantity huge) = None
  ∧ (add_product_to_cart "ann" huge two_item_stores).2 = Raise OverflowError
  ∧ carts (add_product_to_cart "ann" huge two_item_stores).1 !! "ann"
    = Some (mkCart "ann" [laptop; cable; huge] 1201.29%float)
  ∧ PyLong_AsDouble (quantity (mkProduct "p-8" "Знижка" 2.5 (-2))) = Some (-2)%float
  ∧ carts (add_product_to_cart "ann" (mkProduct "p-8" "Знижка" 2.5 (-2))
             two_item_stores).1 !! "ann"
    = Some (mkCart "ann" [laptop; cable; mkProduct "p-8" "Знижка" 2.5 (-2)]
              1196.29%float).
Proof.
  assert (PyLong_AsDouble (quantity huge) = None) as Hhuge by (vm_compute; reflexivity).
  assert (PyLong_AsDouble (quantity (mkProduct "p-8" "Знижка" 2.5 (-2)))
          = Some (-2)%float) as Hneg by (vm_compute; reflexivity).
  split; [exact Hhuge|].
  split.
  { exact (proj2 (proj1 (proj2 (add_product_outcomes two_item_stores "ann" huge)))
             Hhuge). }
  split.
  { exact (proj1 (proj2 (proj2 (add_product_outcomes two_item_stores "ann" huge)))
             Hhuge). }
  split; [exact Hneg|].
  exact (proj2 (proj2 (proj2 (proj2 (add_product_outcomes two_item_stores "ann"
                                       (mkProduct "p-8" "Знижка" 2.5 (-2)))))
                  _ Hneg)).
Defined.

(** ** After a checkout *)

(** X10: once a checkout has returned, the user's cart exists and is empty:
    get_cart answers with the empty cart, a second checkout raises
    InvalidState, remove_product raises NotFound for the product, not for
    the cart, and none of the three changes a store. *)
Theorem after_checkout s uid addr uuid d :
  (checkout uid addr uuid s).2 = Return d →
  get_cart uid (checkout uid addr uuid s).1
  = ((checkout uid addr uuid s).1, Return (new_cart uid))
  ∧ (∀ addr' uuid',
       checkout uid addr' uuid' (checkout uid addr uuid s).1
       = ((checkout uid addr uuid s).1, Raise (HTTPException 400 "Кошик порожній")))
  ∧ (∀ pid,
       remove_product_from_cart uid pid (checkout uid addr uuid s).1
       = ((checkout uid addr uuid s).1,
          Raise (HTTPException 404 "Товар не знайдено в кошику"))).
Proof.
  intros Hret.
  assert (carts (checkout uid addr uuid s).1 !! uid = Some (new_cart uid)) as Hc.
  { revert Hret. unfold checkout.
    destruct (carts s !! uid) as [cart|]; [|done].
    destruct (length (items cart) =? 0)%nat; [done|].
    destruct (py_sum _); simpl; [|done]. intros _. apply lookup_insert_eq. }
  split; [|split].
  - unfold get_cart. by rewrite Hc.
  - intros addr' uuid'. unfold checkout at 1. by rewrite Hc.
  - intros pid. unfold remove_product_from_cart. by rewrite Hc.
Qed.

Lemma after_checkout_witness :
  (checkout "ann" kyiv "o-1" two_item_stores).2
  = Return (mkDeliveryInfo "o-1" "ann" kyiv 1206.29%float "Processing")
  ∧ get_cart "ann" (checkout "ann" kyiv "o-1" two_item_stores).1
    = ((checkout "ann" kyiv "o-1" two_item_stores).1, Return (new_cart "ann"))
  ∧ checkout "ann" lviv "o-2" (checkout "ann" kyiv "o-1" two_item_stores).1
    = ((checkout "ann" kyiv "o-1" two_item_stores).1,
       Raise (HTTPException 400 "Кошик порожній"))
  ∧ remove_product_from_cart "ann" "p-1" (checkout "ann" kyiv "o-1" two_item_stores).1
    = ((checkout "ann" kyiv "o-1" two_item_stores).1,
       Raise (HTTPException 404 "Товар не знайдено в кошику")).
Proof.
  assert ((checkout "ann" kyiv "o-1" two_item_stores).2
          = Return (mkDeliveryInfo "o-1" "ann" kyiv 1206.29%float "Processing"))
    as Hret by (vm_compute; reflexivity).
  split; [exact Hret|].
  split; [exact (proj1 (after_checkout two_item_stores "ann" kyiv "o-1" _ Hret))|].
  split.
  { exact (proj1 (proj2 (after_checkout two_item_stores "ann" kyiv "o-1" _ Hret))
             lviv "o-2"). }
  exact (proj2 (proj2 (after_checkout two_item_stores "ann" kyiv "o-1" _ Hret)) "p-1").
Defined.

(** ** Adding an item and removing it *)

Lemma add_product_returns s uid p c :
  line_total p = Some c →
  add_product_to_cart uid p s
  = (set_carts
       <[uid := mkCart (user_id (default (new_cart uid) (carts s !! uid)))
                  (items (default (new_cart uid) (carts s !! uid)) ++ [p])
                  (total (default (new_cart uid) (carts s !! uid)) + c)%float]> s,
     Return (mkCart (user_id (default (new_cart uid) (carts s !! uid)))
               (items (default (new_cart uid) (carts s !! uid)) ++ [p])
               (total (default (new_cart uid) (carts s !! uid)) + c)%float)).
Proof.
  intros Hp. unfold add_product_to_cart. rewrite Hp. cbv zeta.
  by rewrite set_carts_twice.
Qed.

(** X11: when no item of the user's cart has the product's id, add_product
    followed by remove_product with that id gives back the item list as it
    was before the two calls, and leaves [total = (t + c) - c] in float
    arithmetic, [t] being the total before and [c] the product's
    [price * quantity]. *)
Theorem add_then_remove_new_id s uid p c :
  line_total p = Some c →
  Forall (λ x, product_id x ≠ product_id p)
    (items (default (new_cart uid) (carts s !! uid))) →
  ∃ s1 c1 s2 c2,
    add_product_to_cart uid p s = (s1, Return c1)
    ∧ remove_product_from_cart uid (product_id p) s1 = (s2, Return c2)
    ∧ carts s2 !! uid = Some c2
    ∧ items c2 = items (default (new_cart uid) (carts s !! uid))
    ∧ total c2 = (total (default (new_cart uid) (carts s !! uid)) + c - c)%float.
Proof.
  intros Hp Hnew. rewrite (add_product_returns s uid p c Hp).
  set (c0 := default (new_cart uid) (carts s !! uid)) in *.
  set (c1 := mkCart (user_id c0) (items c0 ++ [p]) (total c0 + c)%float).
  do 2 eexists.
  rewrite (remove_product_found (set_carts <[uid := c1]> s) uid (product_id p) c1
             (items c0) p []);
    [|simpl; by rewrite lookup_insert_eq|done..].
  rewrite Hp. cbv zeta. do 2 eexists. split; [reflexivity|].
  split; [reflexivity|]. simpl. rewrite lookup_insert_eq, app_nil_r. done.
Qed.

Lemma add_then_remove_new_id_witness :
  line_total pen = Some 3%float
  ∧ ∃ s1 c1 s2 c2,
      add_product_to_cart "ann" pen two_item_stores = (s1, Return c1)
      ∧ remove_product_from_cart "ann" "p-7" s1 = (s2, Return c2)
      ∧ carts s2 !! "ann" = Some c2
      ∧ items c2 = [laptop; cable]
      ∧ total c2 = (1201.29 + 3 - 3)%float.
Proof.
  assert (line_total pen = Some 3%float) as Hp by (vm_compute; reflexivity).
  split; [exact Hp|].
  apply (add_then_remove_new_id two_item_stores "ann" pen 3%float Hp).
  vm_compute. repeat constructor; discriminate.
Defined.

(** X12: when the cart already holds an item with the product's id,
    add_product followed by remove_product with that id removes the older
    item, the first with that id, and keeps the product just added at the
    end of the list; [total] ends as [(t + c) - c'], with [c'] the older
    item's [price * quantity]. *)
Theorem add_then_remove_known_id s uid cart before q after p c cq :
  carts s !! uid = Some cart →
  items cart = before ++ q :: after →
  Forall (λ x, product_id x ≠ product_id p) before →
  product_id q = product_id p →
  line_total p = Some c → line_total q = Some cq →
  ∃ s1 c1 s2 c2,
    add_product_to_cart uid p s = (s1, Return c1)
    ∧ remove_product_from_cart uid (product_id p) s1 = (s2, Return c2)
    ∧ carts s2 !! uid = Some c2
    ∧ items c2 = before ++ after ++ [p]
    ∧ total c2 = (total cart + c - cq)%float.
Proof.
  intros Hc Hitems Hbefore Hid Hp Hq. rewrite (add_product_returns s uid p c Hp).
  rewrite Hc. simpl.
  set (c1 := mkCart (user_id cart) (items cart ++ [p]) (total cart + c)%float).
  do 2 eexists.
  rewrite (remove_product_found (set_carts <[uid := c1]> s) uid (product_id p) c1
             before q (after ++ [p]));
    [|simpl; by rewrite lookup_insert_eq|simpl; by rewrite Hitems, <- app_assoc|done..].
  rewrite Hq. cbv zeta. do 2 eexists. split; [reflexivity|].
  split; [reflexivity|]. simpl. by rewrite lookup_insert_eq.
Qed.

Lemma add_then_remove_known_id_witness :
  carts twin_stores !! "ann" = Some (mkCart "ann" [cable; pen; pen_again] 12.3%float)
  ∧ ∃ s1 c1 s2 c2,
      add_product_to_cart "ann" (mkProduct "p-7" "Ручка нова" 4 1) twin_stores
      = (s1, Return c1)
      ∧ remove_product_from_cart "ann" "p-7" s1 = (s2, Return c2)
      ∧ carts s2 !! "ann" = Some c2
      ∧ items c2 = [cable] ++ [pen_again] ++ [mkProduct "p-7" "Ручка нова" 4 1]
      ∧ total c2 = (12.3 + 4 - 3)%float.
Proof.
  assert (carts twin_stores !! "ann"
          = Some (mkCart "ann" [cable; pen; pen_again] 12.3%float)) as Hc
    by (vm_compute; reflexivity).
  split; [exact Hc|].
  apply (add_then_remove_known_id twin_stores "ann" _ [cable] pen [pen_again]
           (mkProduct "p-7" "Ручка нова" 4 1) 4%float 3%float Hc).
  - reflexivity.
  - repeat constructor. simpl. discriminate.
  - reflexivity.
  - vm_compute; reflexivity.
  - vm_compute; reflexivity.
Defined.

(** ** The cart in the response is the cart in the store *)

(** X13: the cart that add_product or remove_product returns is the cart
    the Cart Store holds for the user afterwards, so that a get_cart right
    after answers with that same cart and changes nothing. *)
Theorem returned_cart_is_stored s uid :
  (∀ p c, (add_product_to_cart uid p s).2 = Return c →
     get_cart uid (add_product_to_cart uid p s).1
     = ((add_product_to_cart uid p s).1, Return c))
  ∧ (∀ pid c, (remove_product_from_cart uid pid s).2 = Return c →
       get_cart uid (remove_product_from_cart uid pid s).1
       = ((remove_product_from_cart uid pid s).1, Return c)).
Proof.
  split.
  - intros p c. unfold add_product_to_cart.
    destruct (line_total p); simpl; [|done]. intros [= <-].
    unfold get_cart. simpl. by rewrite lookup_insert_eq.
  - intros pid c Hret.
    destruct (remove_product_returns _ _ _ _ Hret)
      as (cart & before & p & after & x & _ & _ & _ & _ & _ & _ & Hs).
    unfold get_cart. rewrite Hs. simpl. by rewrite lookup_insert_eq.
Qed.

Lemma returned_cart_is_stored_witness :
  (add_product_to_cart "ann" pen two_item_stores).2
  = Return (mkCart "ann" [laptop; cable; pen] 1204.29%float)
  ∧ get_cart "ann" (add_product_to_cart "ann" pen two_item_stores).1
    = ((add_product_to_cart "ann" pen two_item_stores).1,
       Return (mkCart "ann" [laptop; cable; pen] 1204.29%float))
  ∧ (remove_product_from_cart "ann" "p-1" two_item_stores).2
    = Return (mkCart "ann" [cable] (1201.29 - 1200.99)%float)
  ∧ get_cart "ann" (remove_product_from_cart "ann" "p-1" two_item_stores).1
    = ((remove_product_from_cart "ann" "p-1" two_item_stores).1,
       Return (mkCart "ann" [cable] (1201.29 - 1200.99)%float)).
Proof.
  assert ((add_product_to_cart "ann" pen two_item_stores).2
          = Return (mkCart "ann" [laptop; cable; pen] 1204.29%float)) as Hadd
    by (vm_compute; reflexivity).
  assert ((remove_product_from_cart "ann" "p-1" two_item_stores).2
          = Return (mkCart "ann" [cable] (1201.29 - 1200.99)%float)) as Hrm
    by (vm_compute; reflexivity).
  split; [exact Hadd|].
  split; [exact (proj1 (returned_cart_is_stored two_item_stores "ann") pen _ Hadd)|].
  split; [exact Hrm|].
  exact (proj2 (returned_cart_is_stored two_item_stores "ann") "p-1" _ Hrm).
Defined.

(** ** checkout and the address *)

(** X14: checkout does not look at the address: for two addresses, the
    same cart gives the same error or the same [delivery_cost], and the same
    Cart Store afterwards; the address is only copied into the record. *)
Theorem checkout_ignores_address s uid uuid addr1 addr2 :
  map_outcome delivery_cost (checkout uid addr1 uuid s).2
  = map_outcome delivery_cost (checkout uid addr2 uuid s).2
  ∧ carts (checkout uid addr1 uuid s).1 = carts (checkout uid addr2 uuid s).1
  ∧ user_addresses (checkout uid addr1 uuid s).1
    = user_addresses (checkout uid addr2 uuid s).1
  ∧ (∀ d, (checkout uid addr1 uuid s).2 = Return d → delivery_address d = addr1).
Proof.
  unfold checkout. destruct (carts s !! uid) as [cart|]; [|done].
  destruct (length (items cart) =? 0)%nat; [done|].
  destruct (py_sum _); simpl; repeat split; try done. by intros d [= <-].
Qed.

(** ** The amounts of add_product, remove_product and checkout *)

(** Float multiplication commutes: the specification of the operation on
    [spec_float] is symmetric case by case. *)
Lemma SF64mul_comm x y : SF64mul x y = SF64mul y x.
Proof.
  unfold SF64mul, SFmul.
  destruct x as [sx|sx| |sx mx ex], y as [sy|sy| |sy my ey];
    rewrite ?(Bool.xorb_comm sx sy); try reflexivity.
  by rewrite (Pos.mul_comm mx my), (Z.add_comm ex ey).
Qed.

Lemma float_mul_comm (x y : float) : (x * y)%float = (y * x)%float.
Proof. apply Prim2SF_inj. by rewrite !mul_spec, SF64mul_comm. Qed.

(** X15: for every product, the term [quantity * price] that checkout puts
    into its sum and the amount [price * quantity] that add_product adds to,
    and remove_product subtracts from, the total are the same: both raise
    [OverflowError] when the quantity does not convert to float, and both are
    the float product of the price and the converted quantity otherwise. *)
Theorem checkout_term_is_line_total (p : Product) :
  checkout_term p = line_total p
  ∧ (PyLong_AsDouble (quantity p) = None →
     checkout_term p = None ∧ line_total p = None)
  ∧ (∀ q, PyLong_AsDouble (quantity p) = Some q →
       checkout_term p = Some (price p * q)%float
       ∧ line_total p = Some (price p * q)%float).
Proof.
  unfold checkout_term, line_total, int_mul_float, float_mul_int.
  destruct (PyLong_AsDouble (quantity p)) as [f|]; simpl.
  - rewrite (float_mul_comm f (price p)). repeat split; try done; by simplify_eq.
  - repeat split; done.
Qed.

Lemma checkout_term_is_line_total_witness :
  PyLong_AsDouble (quantity cable) = Some 3%float
  ∧ checkout_term cable = Some 0.30000000000000004%float
  ∧ line_total cable = Some 0.30000000000000004%float
  ∧ PyLong_AsDouble (quantity huge) = None
  ∧ checkout_term huge = None ∧ line_total huge = None.
Proof.
  assert (PyLong_AsDouble (quantity cable) = Some 3%float) as Hq
    by (vm_compute; reflexivity).
  assert (PyLong_AsDouble (quantity huge) = None) as Hhuge
    by (vm_compute; reflexivity).
  split; [exact Hq|].
  split; [exact (proj1 (proj2 (proj2 (checkout_term_is_line_total cable)) _ Hq))|].
  split; [exact (proj2 (proj2 (proj2 (checkout_term_is_line_total cable)) _ Hq))|].
  split; [exact Hhuge|].
  exact (proj1 (proj2 (checkout_term_is_line_total huge)) Hhuge).
Defined.

Lemma checkout_ignores_address_witness :
  map_outcome delivery_cost (checkout "ann" kyiv "o-1" two_item_stores).2
  = map_outcome delivery_cost (checkout "ann" lviv "o-1" two_item_stores).2
  ∧ map_outcome delivery_cost (checkout "ann" kyiv "o-1" two_item_stores).2
    = Return 1206.29%float
  ∧ map_outcome delivery_cost (checkout "bob" kyiv "o-1" two_item_stores).2
    = map_outcome delivery_cost (checkout "bob" lviv "o-1" two_item_stores).2.
Proof.
  split; [exact (proj1 (checkout_ignores_address two_item_stores "ann" "o-1" kyiv lviv))|].
  split; [vm_compute; reflexivity|].
  exact (proj1 (checkout_ignores_address two_item_stores "bob" "o-1" kyiv lviv)).
Defined.

(** ** The total of one user's cart *)

Lemma sum_from_line_total l : ∀ acc,
  sum_from acc (line_total <$> l) = sum_price_quantity_from acc l.
Proof.
  induction l as [|p l IH]; intros acc; simpl; [done|].
  unfold line_total, float_mul_int.
  destruct (PyLong_AsDouble (quantity p)) as [q|]; simpl; [apply IH | done].
Qed.

Lemma cart_sum_price_quantity l : cart_sum l = sum_price_quantity l.
Proof. apply sum_from_line_total. Qed.

Lemma run_cart_cons r rs s :
  run_cart (r :: rs) s = run_cart rs (handle_cart r s).1.
Proof. reflexivity. Qed.

Lemma keeps_sum_step r s kept :
  (kept = true → ∀ c, carts s !! cart_request_user r = Some c → total_is_sum c) →
  keeps_sum r s kept = true →
  ∀ c, carts (handle_cart r s).1 !! cart_request_user r = Some c → total_is_sum c.
Proof.
  unfold keeps_sum. destruct r as [u|u product|u pid|u addr uuid];
    unfold handle_cart, cart_request_user; rewrite respond_fst, ?respond_snd.
  - intros Hs Hk. assert (kept = true) as Hkept.
    { by destruct (get_cart u s).2 as [?|[]]. }
    unfold get_cart. destruct (carts s !! u) as [cart|] eqn:Hc; simpl.
    + rewrite Hc. by apply Hs.
    + rewrite lookup_insert_eq. intros c [= <-]. apply new_cart_total_is_sum.
  - unfold add_product_to_cart.
    destruct (line_total product) as [x|] eqn:Hp; simpl; [|done].
    intros Hs Hkept c. rewrite lookup_insert_eq. intros [= <-].
    unfold total_is_sum. simpl. apply cart_sum_snoc; [|done].
    destruct (carts s !! u) as [cart|] eqn:Hc; simpl; [by apply Hs | done].
  - intros Hs.
    destruct (remove_product_from_cart u pid s).2 as [c'|[code detail|]] eqn:Ho;
      simpl; [done| |done].
    intros Hkept. rewrite (remove_product_http_unchanged _ _ _ _ _ Ho). by apply Hs.
  - intros Hs.
    destruct (checkout u addr uuid s).2 as [d|e] eqn:Ho; simpl.
    + intros _ c. revert Ho. unfold checkout.
      destruct (carts s !! u) as [cart|]; [|done].
      destruct (length (items cart) =? 0)%nat; [done|].
      destruct (py_sum _); simpl; [|done].
      intros _. rewrite lookup_insert_eq. intros [= <-]. apply new_cart_total_is_sum.
    + intros Hkept. rewrite (checkout_raise_unchanged _ _ _ _ _ Ho). apply Hs.
      by destruct e.
Qed.

Lemma sum_kept_invariant uid rs : ∀ s kept,
  (kept = true → ∀ c, carts s !! uid = Some c → total_is_sum c) →
  sum_kept uid rs s kept = true →
  ∀ c, carts (run_cart rs s) !! uid = Some c → total_is_sum c.
Proof.
  induction rs as [|r rs IH]; intros s kept Hs; simpl sum_kept.
  - intros ->. by apply Hs.
  - rewrite run_cart_cons. apply IH. case_decide as Hu.
    + subst uid. intros Hk. by apply (keeps_sum_step r s kept).
    + intros Hk c. rewrite handle_cart_carts_other by done. by apply Hs.
Qed.

(** A run that is quiet as a whole keeps every user's sum. *)
Lemma quiet_run_sum_kept uid rs : ∀ s,
  quiet_run rs s = true → sum_kept uid rs s true = true.
Proof.
  induction rs as [|r rs IH]; intros s; simpl; [done|].
  intros [Hq Hrs]%andb_true_iff.
  assert (keeps_sum r s true = true) as ->.
  { revert Hq. unfold quiet, keeps_sum.
    destruct r, (handle_cart _ s).2 as [?|[]]; done. }
  case_decide; by apply IH.
Qed.

(** C1 (amended): starting from empty stores, after every sequence of
    get_cart, add_product, remove_product and checkout calls, the cart of a
    user has [total] equal to the sum of [price * quantity] over its [items]
    (added up from 0.0 in list order, in floats) provided that, since the
    cart was created or last emptied by a checkout, no remove_product call
    for that user got past its NotFound checks and no add_product call for
    that user ended in [OverflowError]; what was called for other users does
    not matter.  In particular, add_product calls for products whose
    quantities all convert to float, made on a fresh cart, leave the cart
    with exactly the added products, in call order, and with [total] equal
    to that sum over them. *)
Theorem total_is_sum_since_reset :
  (∀ rs uid c,
     sum_kept uid rs empty_stores true = true →
     carts (run_cart rs empty_stores) !! uid = Some c →
     sum_price_quantity (items c) = Some (total c))
  ∧ (∀ s uid ps t,
       fresh_cart uid s → ps ≠ [] →
       sum_price_quantity ps = Some t →
       carts (run_cart (AddProduct uid <$> ps) s) !! uid = Some (mkCart uid ps t)).
Proof.
  split.
  - intros rs uid c Hkept Hc. rewrite <- cart_sum_price_quantity.
    apply (sum_kept_invariant uid rs empty_stores true); [|done..].
    intros _ c'. simpl. by rewrite lookup_empty.
  - intros s uid [|p ps] t Hfresh Hne Hsum; [done|].
    unfold sum_price_quantity in Hsum. simpl in Hsum.
    destruct (PyLong_AsDouble (quantity p)) as [q|] eqn:Hq; [|done].
    assert (line_total p = Some (price p * q)%float) as Hp.
    { unfold line_total, float_mul_int. by rewrite Hq. }
    assert (default (new_cart uid) (carts s !! uid) = new_cart uid) as Hdef.
    { by destruct Hfresh as [-> | ->]. }
    rewrite fmap_cons, run_cart_cons. unfold handle_cart at 1.
    rewrite respond_fst, (add_product_returns s uid p _ Hp), Hdef. cbn [fst].
    rewrite (add_products_run uid ps _
               (mkCart uid [p] (0 + price p * q)%float) t);
      [done | simpl; apply lookup_insert_eq | simpl; by rewrite sum_from_line_total].
Qed.

Lemma total_is_sum_since_reset_witness :
  quiet_run reset_example empty_stores = false
  ∧ sum_kept "bob" reset_example empty_stores true = true
  ∧ carts (run_cart reset_example empty_stores) !! "bob"
    = Some (mkCart "bob" [laptop; cable] 1201.29%float)
  ∧ sum_price_quantity [laptop; cable] = Some 1201.29%float
  ∧ sum_kept "ann" reset_example empty_stores true = true
  ∧ carts (run_cart reset_example empty_stores) !! "ann"
    = Some (mkCart "ann" [cable] 0.30000000000000004%float)
  ∧ sum_price_quantity [cable] = Some 0.30000000000000004%float
  ∧ fresh_cart "u" empty_stores
  ∧ sum_price_quantity [tenth; fifth; two_fifths] = Some 0.7000000000000001%float
  ∧ carts (run_cart (AddProduct "u" <$> [tenth; fifth; two_fifths]) empty_stores) !! "u"
    = Some (mkCart "u" [tenth; fifth; two_fifths] 0.7000000000000001%float).
Proof.
  assert (sum_kept "bob" reset_example empty_stores true = true) as Hbob
    by (vm_compute; reflexivity).
  assert (carts (run_cart reset_example empty_stores) !! "bob"
          = Some (mkCart "bob" [laptop; cable] 1201.29%float)) as Hcbob
    by (vm_compute; reflexivity).
  assert (sum_kept "ann" reset_example empty_stores true = true) as Hann
    by (vm_compute; reflexivity).
  assert (carts (run_cart reset_example empty_stores) !! "ann"
          = Some (mkCart "ann" [cable] 0.30000000000000004%float)) as Hcann
    by (vm_compute; reflexivity).
  assert (fresh_cart "u" empty_stores) as Hfresh by (left; reflexivity).
  assert (sum_price_quantity [tenth; fifth; two_fifths]
          = Some 0.7000000000000001%float) as Hsum by (vm_compute; reflexivity).
  split; [vm_compute; reflexivity|].
  split; [exact Hbob|]. split; [exact Hcbob|].
  split; [exact (proj1 total_is_sum_since_reset reset_example "bob" _ Hbob Hcbob)|].
  split; [exact Hann|]. split; [exact Hcann|].
  split; [exact (proj1 total_is_sum_since_reset reset_example "ann" _ Hann Hcann)|].
  split; [exact Hfresh|]. split; [exact Hsum|].
  apply (proj2 total_is_sum_since_reset empty_stores "u" [tenth; fifth; two_fifths]
           _ Hfresh); [discriminate | exact Hsum].
Defined.
